(** * Contact manager (pickle_cli_bot_module8.py): a shallow embedding

    Python strings are modelled by [string]: a sequence of characters whose
    code points are below 256.  In that range the regular expression class
    [\d] is exactly the ten characters '0'..'9', and the white space of
    [str.split] is the twelve characters listed in [isspace].

    Python exceptions are modelled by the type [exn]; code that may raise
    returns a [result].  Methods that mutate their receiver return the new
    receiver next to their value. *)

From Stdlib Require Import ZArith NArith List String Ascii Bool Lia.
From Stdlib Require Import DecimalString.
Import ListNotations.
Local Open Scope string_scope.
Local Open Scope Z_scope.

(** ** Exceptions and results *)

Inductive exn : Type :=
| KeyError
| ValueError (msg : string)
| IndexError
| OverflowError (msg : string).

Inductive result (A : Type) : Type :=
| Ok (a : A)
| Raise (e : exn).
Arguments Ok {A} a.
Arguments Raise {A} e.

Definition bind {A B : Type} (x : result A) (k : A -> result B) : result B :=
  match x with
  | Ok a => k a
  | Raise e => Raise e
  end.

Notation "x <- c ;; k" := (bind c (fun x => k))
  (at level 61, c at next level, right associativity).

(** ** Characters and strings *)

Definition LF : ascii := ascii_of_nat 10.

(** [\d] on code points below 256. *)
Definition is_digit (c : ascii) : bool :=
  let n := nat_of_ascii c in (Nat.leb 48 n && Nat.leb n 57)%bool.

(** [str.isspace] on code points below 256. *)
Definition isspace (c : ascii) : bool :=
  let n := nat_of_ascii c in
  ((Nat.leb 9 n && Nat.leb n 13) || (Nat.leb 28 n && Nat.leb n 32)
   || Nat.eqb n 133 || Nat.eqb n 160)%bool.

(** [needle in hay] for two strings. *)
Fixpoint str_in (needle hay : string) : bool :=
  (prefix needle hay ||
   match hay with
   | EmptyString => false
   | String _ t => str_in needle t
   end)%bool.

(** ** Regular expressions: the fragment used by [Phone.validate]

    [re.match] anchors the match at position 0 and lets the pattern stop
    before the end of the string.  Without flags, [^] matches at position 0
    only, and [$] matches at the end of the string or just before a newline
    that is the last character. *)

Inductive re_atom : Type :=
| Caret
| Dollar
| Digits (n : nat).

Fixpoint take_digits (n : nat) (s : string) : option string :=
  match n with
  | O => Some s
  | S n' =>
      match s with
      | String c t => if is_digit c then take_digits n' t else None
      | EmptyString => None
      end
  end.

Definition at_dollar (s : string) : bool :=
  match s with
  | EmptyString => true
  | String c EmptyString => Ascii.eqb c LF
  | _ => false
  end.

Fixpoint re_match_at (pat : list re_atom) (at_start : bool) (s : string) : bool :=
  match pat with
  | [] => true
  | Caret :: pat' => (at_start && re_match_at pat' at_start s)%bool
  | Dollar :: pat' => (at_dollar s && re_match_at pat' at_start s)%bool
  | Digits n :: pat' =>
      match take_digits n s with
      | Some rest =>
          re_match_at pat' (at_start && Nat.eqb n 0)%bool rest
      | None => false
      end
  end.

Definition re_match (pat : list re_atom) (s : string) : bool :=
  re_match_at pat true s.

(** ** Field value types *)

Module Phone.
(** [bool(re.match(r'^\d{10}$', number))] *)
Definition validate (number : string) : bool :=
  re_match [Caret; Digits 10; Dollar] number.

(** [Phone(number)]: the value of the constructed field. *)
Definition init (number : string) : result string :=
  if negb (validate number)
  then Raise (ValueError "Phone number must be exactly 10 digits.")
  else Ok number.
End Phone.

(** ** Calendar dates: [datetime.date]

    The proleptic Gregorian calendar of the [datetime] module, with years
    in MINYEAR..MAXYEAR; ordinal 1 is 0001-01-01. *)

Record date : Type := mkdate { year : Z; month : Z; day : Z }.

Definition MINYEAR : Z := 1.
Definition MAXYEAR : Z := 9999.
Definition MAXORDINAL : Z := 3652059.

Definition is_leap (y : Z) : bool :=
  ((y mod 4 =? 0) && (negb (y mod 100 =? 0) || (y mod 400 =? 0)))%bool.

Definition DAYS_IN_MONTH (m : Z) : Z :=
  match m with
  | 1 => 31 | 2 => 28 | 3 => 31 | 4 => 30 | 5 => 31 | 6 => 30
  | 7 => 31 | 8 => 31 | 9 => 30 | 10 => 31 | 11 => 30 | 12 => 31
  | _ => -1
  end.

Definition DAYS_BEFORE_MONTH (m : Z) : Z :=
  match m with
  | 1 => 0 | 2 => 31 | 3 => 59 | 4 => 90 | 5 => 120 | 6 => 151
  | 7 => 181 | 8 => 212 | 9 => 243 | 10 => 273 | 11 => 304 | 12 => 334
  | _ => -1
  end.

Definition days_in_month (y m : Z) : Z :=
  if ((m =? 2) && is_leap y)%bool then 29 else DAYS_IN_MONTH m.

Definition days_before_year (y : Z) : Z :=
  let y1 := y - 1 in y1 * 365 + y1 / 4 - y1 / 100 + y1 / 400.

Definition days_before_month (y m : Z) : Z :=
  DAYS_BEFORE_MONTH m + (if ((2 <? m) && is_leap y)%bool then 1 else 0).

Definition ymd2ord (y m d : Z) : Z :=
  days_before_year y + days_before_month y m + d.

Definition DI400Y : Z := 146097.
Definition DI100Y : Z := 36524.
Definition DI4Y : Z := 1461.

Definition ord2ymd (n0 : Z) : Z * Z * Z :=
  let n := n0 - 1 in
  let n400 := n / DI400Y in
  let n := n mod DI400Y in
  let y := n400 * 400 + 1 in
  let n100 := n / DI100Y in
  let n := n mod DI100Y in
  let n4 := n / DI4Y in
  let n := n mod DI4Y in
  let n1 := n / 365 in
  let n := n mod 365 in
  let y := y + n100 * 100 + n4 * 4 + n1 in
  if ((n1 =? 4) || (n100 =? 4))%bool then (y - 1, 12, 31)
  else
    let leapyear := ((n1 =? 3) && (negb (n4 =? 24) || (n100 =? 3)))%bool in
    let m := Z.shiftr (n + 50) 5 in
    let preceding :=
      DAYS_BEFORE_MONTH m + (if ((2 <? m) && leapyear)%bool then 1 else 0) in
    if n <? preceding
    then
      let m' := m - 1 in
      let preceding' :=
        preceding
        - (DAYS_IN_MONTH m' + (if ((m' =? 2) && leapyear)%bool then 1 else 0)) in
      (y, m', n - preceding' + 1)
    else (y, m, n - preceding + 1).

(** A number in decimal, as [%i] and [%d] print it. *)
Definition decimal (n : Z) : string := NilZero.string_of_int (Z.to_int n).

(** The field check of the [date] constructor. *)
Definition check_date_fields (y m d : Z) : result unit :=
  if negb ((MINYEAR <=? y) && (y <=? MAXYEAR))%bool
  then Raise (ValueError ("year " ++ decimal y ++ " is out of range"))
  else if negb ((1 <=? m) && (m <=? 12))%bool
  then Raise (ValueError "month must be in 1..12")
  else if negb ((1 <=? d) && (d <=? days_in_month y m))%bool
  then Raise (ValueError "day is out of range for month")
  else Ok tt.

Definition date_new (y m d : Z) : result date :=
  _ <- check_date_fields y m d ;; Ok (mkdate y m d).

(** [d.replace(year=y)] *)
Definition replace_year (d : date) (y : Z) : result date :=
  date_new y (month d) (day d).

Definition toordinal (d : date) : Z := ymd2ord (year d) (month d) (day d).

Definition fromordinal (n : Z) : date :=
  let '(y, m, d) := ord2ymd n in mkdate y m d.

(** [d.weekday()]: Monday is 0, Sunday is 6. *)
Definition weekday (d : date) : Z := (toordinal d + 6) mod 7.

(** [a < b] on dates compares (year, month, day). *)
Definition date_lt (a b : date) : bool :=
  ((year a <? year b)
   || ((year a =? year b)
       && ((month a <? month b)
           || ((month a =? month b) && (day a <? day b)))))%bool.

(** [(a - b).days] *)
Definition days_between (a b : date) : Z := toordinal a - toordinal b.

(** [d + timedelta(days=k)] *)
Definition date_add_days (d : date) (k : Z) : result date :=
  let o := toordinal d + k in
  if ((0 <? o) && (o <=? MAXORDINAL))%bool
  then Ok (fromordinal o)
  else Raise (OverflowError "date value out of range").

(** *** Formatting and parsing with the pattern [%d.%m.%Y] *)

Definition digit_char (k : Z) : ascii := ascii_of_nat (48 + Z.to_nat k).
Definition digit_val (c : ascii) : Z := Z.of_nat (nat_of_ascii c) - 48.

Definition pad2 (n : Z) (k : string) : string :=
  String (digit_char (n / 10 mod 10)) (String (digit_char (n mod 10)) k).

Definition pad4 (n : Z) (k : string) : string :=
  String (digit_char (n / 1000 mod 10))
    (String (digit_char (n / 100 mod 10)) (pad2 n k)).

(** [%Y] for a year of a date (1 to 9999): the year in decimal, without
    leading zeros; the C library prints a year below 1000 with three
    digits or fewer. *)
Definition year_text (n : Z) (k : string) : string :=
  if n <? 10 then String (digit_char (n mod 10)) k
  else if n <? 100 then pad2 n k
  else if n <? 1000 then String (digit_char (n / 100 mod 10)) (pad2 n k)
  else pad4 n k.

(** [d.strftime("%d.%m.%Y")]: day and month with two digits, the year as
    [%Y] gives it. *)
Definition strftime_dmY (d : date) : string :=
  pad2 (day d)
    (String "." (pad2 (month d) (String "." (year_text (year d) "")))).

Definition in_range (lo hi c : ascii) : bool :=
  (Nat.leb (nat_of_ascii lo) (nat_of_ascii c)
   && Nat.leb (nat_of_ascii c) (nat_of_ascii hi))%bool.

(** The alternatives of [%d], in the order the library's pattern
    [3[0-1]|[1-2]\d|0[1-9]|[1-9]| [1-9]] tries them, each with the value of
    the group and the text left after it. *)
Definition alts_d (s : string) : list (Z * string) :=
  match s with
  | String a (String b t) =>
      (if (Ascii.eqb a "3" && in_range "0" "1" b)%bool
       then [(30 + digit_val b, t)] else [])
      ++ (if (in_range "1" "2" a && is_digit b)%bool
          then [(10 * digit_val a + digit_val b, t)] else [])
      ++ (if (Ascii.eqb a "0" && in_range "1" "9" b)%bool
          then [(digit_val b, t)] else [])
      ++ (if in_range "1" "9" a then [(digit_val a, String b t)] else [])
      ++ (if (Ascii.eqb a " " && in_range "1" "9" b)%bool
          then [(digit_val b, t)] else [])
  | String a EmptyString =>
      if in_range "1" "9" a then [(digit_val a, EmptyString)] else []
  | EmptyString => []
  end.

(** The alternatives of [%m]: [1[0-2]|0[1-9]|[1-9]]. *)
Definition alts_m (s : string) : list (Z * string) :=
  match s with
  | String a (String b t) =>
      (if (Ascii.eqb a "1" && in_range "0" "2" b)%bool
       then [(10 + digit_val b, t)] else [])
      ++ (if (Ascii.eqb a "0" && in_range "1" "9" b)%bool
          then [(digit_val b, t)] else [])
      ++ (if in_range "1" "9" a then [(digit_val a, String b t)] else [])
  | String a EmptyString =>
      if in_range "1" "9" a then [(digit_val a, EmptyString)] else []
  | EmptyString => []
  end.

(** [%Y]: [\d\d\d\d]. *)
Definition match_Y (s : string) : option (Z * string) :=
  match s with
  | String a (String b (String c (String d t))) =>
      if (is_digit a && is_digit b && is_digit c && is_digit d)%bool
      then Some (1000 * digit_val a + 100 * digit_val b
                 + 10 * digit_val c + digit_val d, t)
      else None
  | _ => None
  end.

Definition match_dot (s : string) : option string :=
  match s with
  | String c t => if Ascii.eqb c "." then Some t else None
  | EmptyString => None
  end.

(** Alternation with backtracking: the first alternative after which the
    rest of the pattern matches. *)
Fixpoint first_match {A B : Type} (k : A -> option B) (alts : list A)
  : option B :=
  match alts with
  | [] => None
  | a :: alts' =>
      match k a with
      | Some b => Some b
      | None => first_match k alts'
      end
  end.

(** The match of the whole pattern at position 0: day, month, year and
    the text left unconsumed. *)
Definition match_dmY (s : string) : option (Z * Z * Z * string) :=
  first_match
    (fun '(d, r1) =>
       match match_dot r1 with
       | None => None
       | Some r2 =>
           first_match
             (fun '(m, r3) =>
                match match_dot r3 with
                | None => None
                | Some r4 =>
                    match match_Y r4 with
                    | None => None
                    | Some (y, r5) => Some (d, m, y, r5)
                    end
                end)
             (alts_m r2)
       end)
    (alts_d s).

(** [datetime.strptime(s, "%d.%m.%Y").date()].  The texts of its two
    own errors leave out the input they quote; [Birthday.validate]
    discards them. *)
Definition strptime_dmY (s : string) : result date :=
  match match_dmY s with
  | None => Raise (ValueError "time data does not match format")
  | Some (d, m, y, rest) =>
      match rest with
      | EmptyString => date_new y m d
      | _ => Raise (ValueError "unconverted data remains")
      end
  end.

Module Birthday.
Definition validate (value : string) : result bool :=
  match strptime_dmY value with
  | Ok _ => Ok true
  | Raise (ValueError _) => Ok false
  | Raise e => Raise e
  end.

(** [Birthday(value)]: the date the constructed field holds. *)
Definition init (value : string) : result date :=
  ok <- validate value ;;
  if negb ok
  then Raise (ValueError "Invalid date format. Use DD.MM.YYYY")
  else strptime_dmY value.
End Birthday.

(** ** Values that may be [None] *)

Inductive pyval : Type :=
| PyNone
| PyStr (s : string).

(** How an f-string renders the value. *)
Definition pystr (v : pyval) : string :=
  match v with
  | PyNone => "None"
  | PyStr s => s
  end.

(** [value == v] for a string [value]. *)
Definition str_eq_pyval (value : string) (v : pyval) : bool :=
  match v with
  | PyNone => false
  | PyStr s => String.eqb value s
  end.

(** ** Contact record *)

Module Record.
Record t : Type := mk { name : string; phones : list string; birthday : option date }.

(** [Record(name)] *)
Definition init (name : string) : t := mk name [] None.

Definition set_phones (r : t) (ps : list string) : t :=
  mk (name r) ps (birthday r).

Definition set_birthday (r : t) (b : option date) : t :=
  mk (name r) (phones r) b.

Definition add_phone (r : t) (number : string) : result string * t :=
  match Phone.init number with
  | Ok phone =>
      (Ok ("Phone number '" ++ number ++ "' added for " ++ name r ++ "."),
       set_phones r (phones r ++ [phone]))
  | Raise (ValueError e) => (Ok e, r)
  | Raise e => (Raise e, r)
  end.

(** The loop of [remove_phone]: the first phone equal to [number] is
    taken out of the list. *)
Fixpoint remove_first (number : string) (ps : list string)
  : option (list string) :=
  match ps with
  | [] => None
  | p :: ps' =>
      if String.eqb p number then Some ps'
      else option_map (cons p) (remove_first number ps')
  end.

Definition remove_phone (r : t) (number : string) : result string * t :=
  match remove_first number (phones r) with
  | Some ps =>
      (Ok ("Phone number '" ++ number ++ "' removed for " ++ name r ++ "."),
       set_phones r ps)
  | None =>
      (Ok ("Phone number '" ++ number ++ "' not found for " ++ name r ++ "."),
       r)
  end.

(** The loop of [edit_phone]: at the first phone equal to [old_number]
    the new number is validated and, when valid, written in its place.
    [None] when no phone is equal to [old_number]. *)
Fixpoint edit_first (old_number : pyval) (new_number : string)
  (ps : list string) : option (result (list string)) :=
  match ps with
  | [] => None
  | p :: ps' =>
      if str_eq_pyval p old_number
      then Some (_ <- Phone.init new_number ;; Ok (new_number :: ps'))
      else
        match edit_first old_number new_number ps' with
        | Some (Ok l) => Some (Ok (p :: l))
        | Some (Raise e) => Some (Raise e)
        | None => None
        end
  end.

Definition edit_phone (r : t) (old_number : pyval) (new_number : string)
  : result string * t :=
  match edit_first old_number new_number (phones r) with
  | Some (Ok ps) =>
      (Ok ("Phone number '" ++ pystr old_number ++ "' edited to '"
           ++ new_number ++ "' for " ++ name r ++ "."),
       set_phones r ps)
  | Some (Raise (ValueError e)) => (Ok e, r)
  | Some (Raise e) => (Raise e, r)
  | None =>
      (Ok ("Phone number '" ++ pystr old_number ++ "' not found for "
           ++ name r ++ "."),
       r)
  end.

Definition find_phone (r : t) (number : string) : option string :=
  List.find (fun p => String.eqb p number) (phones r).

Definition add_birthday (r : t) (date_str : string) : result string * t :=
  match Birthday.init date_str with
  | Ok b =>
      (Ok ("Birthday '" ++ date_str ++ "' set for " ++ name r ++ "."),
       set_birthday r (Some b))
  | Raise (ValueError e) => (Ok e, r)
  | Raise e => (Raise e, r)
  end.

Definition show_birthday (r : t) : string :=
  match birthday r with
  | Some b => strftime_dmY b
  | None => "No birthday set"
  end.
End Record.

(** ** Address book

    The [data] dictionary, in insertion order: assigning to a key that is
    present replaces its value in place, assigning to a new key appends. *)

Definition AddressBook : Type := list (string * Record.t).

Fixpoint dict_get (book : AddressBook) (key : string) : option Record.t :=
  match book with
  | [] => None
  | (k, r) :: book' => if String.eqb k key then Some r else dict_get book' key
  end.

Fixpoint dict_set (key : string) (r : Record.t) (book : AddressBook)
  : AddressBook :=
  match book with
  | [] => [(key, r)]
  | (k, r0) :: book' =>
      if String.eqb k key then (k, r) :: book'
      else (k, r0) :: dict_set key r book'
  end.

Definition add_record (record : Record.t) (book : AddressBook) : AddressBook :=
  dict_set (Record.name record) record book.

Definition find (book : AddressBook) (name : string) : option Record.t :=
  dict_get book name.

Definition values (book : AddressBook) : list Record.t := map snd book.

Definition adjust_for_weekend (birthday : date) : result date :=
  if weekday birthday =? 5 then date_add_days birthday 2
  else if weekday birthday =? 6 then date_add_days birthday 1
  else Ok birthday.

Definition date_to_string (birthday : date) : string := strftime_dmY birthday.

Record entry : Type :=
  mkentry { entry_name : string; congratulation_date : string }.

(** The two assignments to [birthday_this_year] before the window test. *)
Definition project (today birthday : date) : result date :=
  birthday_this_year <- replace_year birthday (year today) ;;
  if date_lt birthday_this_year today
  then replace_year birthday_this_year (year today + 1)
  else Ok birthday_this_year.

Definition in_window (today : date) (days : Z) (d : date) : bool :=
  ((0 <=? days_between d today) && (days_between d today <=? days))%bool.

(** The loop of [get_upcoming_birthdays] over the records still to visit;
    [today] stands for [date.today()]. *)
Fixpoint upcoming_loop (today : date) (days : Z) (records : list Record.t)
  (upcoming_birthdays : list entry) : result (list entry) :=
  match records with
  | [] => Ok upcoming_birthdays
  | record :: records' =>
      match Record.birthday record with
      | None => upcoming_loop today days records' upcoming_birthdays
      | Some b =>
          birthday_this_year <- project today b ;;
          if in_window today days birthday_this_year
          then
            shifted <- adjust_for_weekend birthday_this_year ;;
            upcoming_loop today days records'
              (upcoming_birthdays
               ++ [mkentry (Record.name record) (date_to_string shifted)])
          else upcoming_loop today days records' upcoming_birthdays
      end
  end.

Definition get_upcoming_birthdays (today : date) (days : Z)
  (book : AddressBook) : result (list entry) :=
  upcoming_loop today days (values book) [].

(** ** Command handlers *)

Fixpoint lstrip (s : string) : string :=
  match s with
  | String c t => if isspace c then lstrip t else s
  | EmptyString => EmptyString
  end.

(** The longest prefix without white space, and what follows it. *)
Fixpoint span_token (s : string) : string * string :=
  match s with
  | String c t =>
      if isspace c then (EmptyString, s)
      else let '(tok, rest) := span_token t in (String c tok, rest)
  | EmptyString => (EmptyString, EmptyString)
  end.

(** [s.split(maxsplit=1)] *)
Definition split_maxsplit1 (s : string) : list string :=
  match lstrip s with
  | EmptyString => []
  | s1 =>
      let '(tok, rest) := span_token s1 in
      match lstrip rest with
      | EmptyString => [tok]
      | r => [tok; r]
      end
  end.

(** [a, b = parts] *)
Definition unpack2 (parts : list string) : result (string * string) :=
  match parts with
  | [] => Raise (ValueError "not enough values to unpack (expected 2, got 0)")
  | [_] => Raise (ValueError "not enough values to unpack (expected 2, got 1)")
  | [a; b] => Ok (a, b)
  | _ => Raise (ValueError "too many values to unpack (expected 2)")
  end.

(** The decorator: what the wrapped call returns or raises, next to the
    address book it leaves. *)
Definition input_error (func : string -> AddressBook -> result string * AddressBook)
  (args : string) (book : AddressBook) : result string * AddressBook :=
  let '(res, book') := func args book in
  match res with
  | Ok s => (Ok s, book')
  | Raise KeyError => (Ok "This contact does not exist.", book')
  | Raise (ValueError e) => (Ok e, book')
  | Raise IndexError => (Ok "Insufficient arguments provided.", book')
  | Raise e => (Raise e, book')
  end.

Definition add_contact_body (args : string) (book : AddressBook)
  : result string * AddressBook :=
  match unpack2 (split_maxsplit1 args) with
  | Raise e => (Raise e, book)
  | Ok (name, phone) =>
      match find book name with
      | Some record =>
          let '(add_phone_result, record') := Record.add_phone record phone in
          (add_phone_result, dict_set name record' book)
      | None =>
          let new_record := Record.init name in
          let '(res, new_record') := Record.add_phone new_record phone in
          match res with
          | Raise e => (Raise e, book)
          | Ok add_phone_result =>
              if str_in "Phone number must be exactly 10 digits." add_phone_result
              then (Ok add_phone_result, book)
              else
                (Ok ("New contact '" ++ name ++ "' added with phone number '"
                     ++ phone ++ "'." ++ String LF add_phone_result),
                 add_record new_record' book)
          end
      end
  end.

Definition add_contact := input_error add_contact_body.

Definition change_phone_body (args : string) (book : AddressBook)
  : result string * AddressBook :=
  match unpack2 (split_maxsplit1 args) with
  | Raise e => (Raise e, book)
  | Ok (name, phone) =>
      match find book name with
      | Some record =>
          let old_phone :=
            match Record.phones record with
            | p :: _ => PyStr p
            | [] => PyNone
            end in
          let '(res, record') := Record.edit_phone record old_phone phone in
          (res, dict_set name record' book)
      | None => (Ok "Record not found.", book)
      end
  end.

Definition change_phone := input_error change_phone_body.

Definition add_birthday_body (args : string) (book : AddressBook)
  : result string * AddressBook :=
  match unpack2 (split_maxsplit1 args) with
  | Raise e => (Raise e, book)
  | Ok (name, birthday) =>
      match find book name with
      | Some record =>
          let '(res, record') := Record.add_birthday record birthday in
          (res, dict_set name record' book)
      | None => (Ok "Record not found.", book)
      end
  end.

Definition add_birthday := input_error add_birthday_body.

(** ** Notions the statements use *)

Fixpoint str_forall (p : ascii -> bool) (s : string) : bool :=
  match s with
  | EmptyString => true
  | String c t => (p c && str_forall p t)%bool
  end.

(** Exactly ten characters, each of them a decimal digit. *)
Definition is_ten_digits (s : string) : bool :=
  (Nat.eqb (String.length s) 10 && str_forall is_digit s)%bool.

Definition no_space (s : string) : bool :=
  str_forall (fun c => negb (isspace c)) s.

(** The operations on the phones of a record, and a run of them. *)
Inductive record_op : Type :=
| OpAddPhone (number : string)
| OpRemovePhone (number : string)
| OpEditPhone (old_number : pyval) (new_number : string).

Definition apply_op (r : Record.t) (op : record_op) : Record.t :=
  match op with
  | OpAddPhone n => snd (Record.add_phone r n)
  | OpRemovePhone n => snd (Record.remove_phone r n)
  | OpEditPhone o n => snd (Record.edit_phone r o n)
  end.

Definition run_ops (ops : list record_op) (r : Record.t) : Record.t :=
  fold_left apply_op ops r.

(** A date the [date] constructor accepts. *)
Definition valid_date (d : date) : bool :=
  ((MINYEAR <=? year d) && (year d <=? MAXYEAR)
   && (1 <=? month d) && (month d <=? 12)
   && (1 <=? day d) && (day d <=? days_in_month (year d) (month d)))%bool.

(** The days [adjust_for_weekend] moves a date by. *)
Definition weekend_shift (d : date) : Z :=
  if weekday d =? 5 then 2 else if weekday d =? 6 then 1 else 0.

Definition phones_valid (r : Record.t) : Prop :=
  Forall (fun p => Phone.validate p = true) (Record.phones r).

(** ** The rest of the source: deletion, display handlers, the command loop *)

(** [s.rstrip()] and [s.strip()] *)
Fixpoint rstrip (s : string) : string :=
  match s with
  | EmptyString => EmptyString
  | String c t =>
      match rstrip t with
      | EmptyString => if isspace c then EmptyString else String c EmptyString
      | t' => String c t'
      end
  end.

Definition strip (s : string) : string := rstrip (lstrip s).

(** [sep.join(parts)] *)
Fixpoint join (sep : string) (parts : list string) : string :=
  match parts with
  | [] => EmptyString
  | [x] => x
  | x :: parts' => x ++ sep ++ join sep parts'
  end.

(** [str(record)] *)
Definition record_str (r : Record.t) : string :=
  let phones_str := join ", " (Record.phones r) in
  let birthday_str :=
    match Record.birthday r with
    | Some b => strftime_dmY b
    | None => "No birthday set"
    end in
  "Record(name: " ++ Record.name r ++ ", phones: [" ++ phones_str
  ++ "], birthday: " ++ birthday_str ++ ")".

(** [del data[key]] for a key that is present. *)
Fixpoint dict_del (key : string) (book : AddressBook) : AddressBook :=
  match book with
  | [] => []
  | (k, r) :: book' =>
      if String.eqb k key then book' else (k, r) :: dict_del key book'
  end.

(** [AddressBook.delete] *)
Definition delete (book : AddressBook) (name : string)
  : string * AddressBook :=
  match dict_get book name with
  | Some _ =>
      ("Record for " ++ name ++ " removed from the address book.",
       dict_del name book)
  | None => ("No record found for " ++ name ++ ".", book)
  end.

Definition show_birthday_body (args : string) (book : AddressBook)
  : result string * AddressBook :=
  let name := strip args in
  match find book name with
  | Some record =>
      (Ok (name ++ "'s birthday is " ++ Record.show_birthday record ++ "."),
       book)
  | None => (Ok "Record not found.", book)
  end.

Definition show_birthday := input_error show_birthday_body.

Definition show_phone_body (args : string) (book : AddressBook)
  : result string * AddressBook :=
  let name := strip args in
  match find book name with
  | Some record =>
      let phones := join ", " (Record.phones record) in
      (Ok (name ++ "'s phone number(s): " ++ phones), book)
  | None => (Ok "Record not found.", book)
  end.

Definition show_phone := input_error show_phone_body.

(** [str.isdigit] on code points below 256: the ten digits and the
    superscripts one, two and three. *)
Definition isdigit_char (c : ascii) : bool :=
  let n := nat_of_ascii c in
  (is_digit c || Nat.eqb n 178 || Nat.eqb n 179 || Nat.eqb n 185)%bool.

Definition str_isdigit (s : string) : bool :=
  match s with
  | EmptyString => false
  | _ => str_forall isdigit_char s
  end.

Fixpoint digits_value (acc : Z) (s : string) : Z :=
  match s with
  | EmptyString => acc
  | String c t => digits_value (10 * acc + digit_val c) t
  end.

(** [int(s)] for a string on which [isdigit] holds: the superscript digits
    are no literal, and a literal of more than 4300 digits is refused (in
    the words of CPython 3.11). *)
Definition int_of_digits (s : string) : result Z :=
  if negb (str_forall is_digit s)
  then Raise (ValueError
                ("invalid literal for int() with base 10: '" ++ s ++ "'"))
  else if Nat.ltb 4300 (String.length s)
  then Raise (ValueError
                ("Exceeds the limit (4300) for integer string conversion: "
                 ++ "value has " ++ decimal (Z.of_nat (String.length s))
                 ++ " digits; use sys.set_int_max_str_digits() "
                 ++ "to increase the limit"))
  else Ok (digits_value 0 s).

Fixpoint birthday_lines (upcoming_birthdays : list entry) : string :=
  match upcoming_birthdays with
  | [] => EmptyString
  | birthday :: rest =>
      entry_name birthday ++ ": " ++ congratulation_date birthday
      ++ String LF (birthday_lines rest)
  end.

(** [birthdays]; [today] stands for [date.today()]. *)
Definition birthdays_body (today : date) (args : string) (book : AddressBook)
  : result string * AddressBook :=
  match (if str_isdigit (strip args) then int_of_digits (strip args) else Ok 7) with
  | Raise e => (Raise e, book)
  | Ok days =>
      match get_upcoming_birthdays today days book with
      | Raise e => (Raise e, book)
      | Ok [] => (Ok "No upcoming birthdays.", book)
      | Ok upcoming_birthdays =>
          (Ok (strip ("Upcoming birthdays:" ++ String LF
                        (birthday_lines upcoming_birthdays))),
           book)
      end
  end.

Definition birthdays (today : date) := input_error (birthdays_body today).

Fixpoint contact_lines (items : AddressBook) : string :=
  match items with
  | [] => EmptyString
  | (name, record) :: rest =>
      name ++ ": " ++ join ", " (Record.phones record)
      ++ String LF (contact_lines rest)
  end.

Definition show_all_contacts (book : AddressBook) : string :=
  match book with
  | [] => "No contacts in address book."
  | _ => strip ("All contacts:" ++ String LF (contact_lines book))
  end.

(** [str.lower] on code points below 256. *)
Definition lower_char (c : ascii) : ascii :=
  let n := nat_of_ascii c in
  if ((Nat.leb 65 n && Nat.leb n 90)
      || (Nat.leb 192 n && Nat.leb n 214)
      || (Nat.leb 216 n && Nat.leb n 222))%bool
  then ascii_of_nat (n + 32) else c.

Fixpoint lower (s : string) : string :=
  match s with
  | EmptyString => EmptyString
  | String c t => String (lower_char c) (lower t)
  end.

(** [s.split(' ', 1)]: the text before the first space and, when there is
    a space, the text after it. *)
Fixpoint split_space1 (s : string) : string * option string :=
  match s with
  | EmptyString => (EmptyString, None)
  | String c t =>
      if Ascii.eqb c " " then (EmptyString, Some t)
      else let '(a, b) := split_space1 t in (String c a, b)
  end.

Definition parse_input (user_input : string) : string * string :=
  let '(part0, part1) := split_space1 user_input in
  (lower part0, match part1 with Some a => a | None => EmptyString end).

(** One turn of the loop of [main] on a line read: what is printed, the
    book after it, and whether the loop ends (the book is then saved). *)
Definition main_step (today : date) (user_input : string) (book : AddressBook)
  : result (string * AddressBook * bool) :=
  let '(command, args) := parse_input user_input in
  let printed (r : result string * AddressBook) :=
    match r with
    | (Ok text, book') => Ok (text, book', false)
    | (Raise e, _) => Raise e
    end in
  if (String.eqb command "close" || String.eqb command "exit")%bool
  then Ok ("Good bye!", book, true)
  else if String.eqb command "hello" then Ok ("How can I help you?", book, false)
  else if String.eqb command "add" then printed (add_contact args book)
  else if String.eqb command "change" then printed (change_phone args book)
  else if String.eqb command "phone" then printed (show_phone args book)
  else if String.eqb command "all" then Ok (show_all_contacts book, book, false)
  else if String.eqb command "add-birthday" then printed (add_birthday args book)
  else if String.eqb command "show-birthday" then printed (show_birthday args book)
  else if String.eqb command "birthdays" then printed (birthdays today args book)
  else Ok ("Invalid command.", book, false).

(** Where a run of the loop stands once the lines given are used up:
    the book was saved on close or exit, or the loop waits for a line. *)
Inductive run_state : Type :=
| Saved (book : AddressBook)
| Waiting (book : AddressBook).

(** The loop of [main] on the lines read, each with the date of the day
    it is read on; the texts printed are collected in order. *)
Fixpoint main_loop (inputs : list (date * string)) (book : AddressBook)
  : result (list string * run_state) :=
  match inputs with
  | [] => Ok ([], Waiting book)
  | (today, user_input) :: inputs' =>
      match main_step today user_input book with
      | Raise e => Raise e
      | Ok (text, book', true) => Ok ([text], Saved book')
      | Ok (text, book', false) =>
          match main_loop inputs' book' with
          | Raise e => Raise e
          | Ok (texts, st) => Ok (text :: texts, st)
          end
      end
  end.

(** [main] from the book that [load_data] returns. *)
Definition main (inputs : list (date * string)) (book : AddressBook)
  : result (list string * run_state) :=
  match main_loop inputs book with
  | Raise e => Raise e
  | Ok (texts, st) => Ok ("Welcome to the assistant bot!" :: texts, st)
  end.

(** The book invariant: keys are distinct, every record is stored under
    its own name, and every stored phone passes validation. *)
Definition book_ok (book : AddressBook) : Prop :=
  NoDup (map fst book)
  /\ Forall (fun kr => Record.name (snd kr) = fst kr /\ phones_valid (snd kr)) book.

(** The commands that change the book. *)
Inductive command : Type :=
| CmdAdd (args : string)
| CmdChange (args : string)
| CmdAddBirthday (args : string)
| CmdDelete (name : string).

Definition run_command (book : AddressBook) (c : command) : AddressBook :=
  match c with
  | CmdAdd args => snd (add_contact args book)
  | CmdChange args => snd (change_phone args book)
  | CmdAddBirthday args => snd (add_birthday args book)
  | CmdDelete name => snd (delete book name)
  end.

(** A handler call that returns a text, whatever book it leaves. *)
Definition returns_text (r : result string * AddressBook) : Prop :=
  exists text book', r = (Ok text, book').

(** The message of a rejected phone number. *)
Definition digits_message : string := "Phone number must be exactly 10 digits.".

Definition not_P (c : ascii) : bool := negb (Ascii.eqb "P" c).

(** A text of the shape DD.MM.YYYY, and the numbers its digits denote. *)
Definition dmY_text (d1 d2 m1 m2 y1 y2 y3 y4 : ascii) : string :=
  String d1 (String d2 (String "." (String m1 (String m2 (String "."
    (String y1 (String y2 (String y3 (String y4 EmptyString))))))))).

Definition num2 (a b : ascii) : Z := 10 * digit_val a + digit_val b.

Definition num4 (a b c d : ascii) : Z :=
  1000 * digit_val a + 100 * digit_val b + 10 * digit_val c + digit_val d.

(** A check, by running the two conversions, that [ymd2ord] undoes
    [ord2ymd] on the ordinals from [lo] on, and that the month and the day
    that [ord2ymd] gives are those of a date. *)
Definition ord_round_trip (n : Z) : bool :=
  let '(y, m, d) := ord2ymd n in
  ((ymd2ord y m d =? n)
   && (1 <=? m) && (m <=? 12) && (1 <=? d) && (d <=? days_in_month y m))%bool.

Definition check_step (st : Z * bool) : Z * bool :=
  (fst st + 1, (snd st && ord_round_trip (fst st))%bool).

Definition check_from (lo : Z) (count : N) : bool :=
  snd (N.iter count check_step (lo, true)).

(** * Properties *)

(** ** Phone validation *)

Lemma take_digits_app (n : nat) :
  forall s rest,
    take_digits n s = Some rest <->
    exists d, String.length d = n /\ str_forall is_digit d = true /\ s = d ++ rest.
Proof.
  induction n as [|n IH]; intros s rest; simpl.
  - split.
    + intros [= ->]. exists EmptyString. auto.
    + intros ([|c d] & Hl & _ & ->); [reflexivity | discriminate].
  - destruct s as [|c t].
    + split; [discriminate|].
      intros ([|c d] & Hl & _ & He); discriminate.
    + destruct (is_digit c) eqn:Hc.
      * rewrite IH. split.
        -- intros (d & Hl & Hd & ->). exists (String c d). simpl.
           rewrite Hc, Hd, Hl. auto.
        -- intros ([|c' d] & Hl & Hd & He); [discriminate|].
           simpl in *. injection He as -> ->. injection Hl as Hl.
           apply andb_true_iff in Hd as [_ Hd]. exists d. auto.
      * split; [discriminate|].
        intros ([|c' d] & Hl & Hd & He); [discriminate|].
        simpl in *. injection He as -> ->. rewrite Hc in Hd. discriminate.
Qed.

Lemma at_dollar_spec (s : string) :
  at_dollar s = true <-> s = EmptyString \/ s = String LF EmptyString.
Proof.
  destruct s as [|c [|c' t]]; simpl.
  - tauto.
  - rewrite Ascii.eqb_eq. split.
    + intros ->. now right.
    + intros [H|H]; [discriminate | now injection H].
  - split; [discriminate | intros [H|H]; discriminate].
Qed.

Lemma validate_unfold (s : string) :
  Phone.validate s =
  match take_digits 10 s with
  | Some rest => at_dollar rest
  | None => false
  end.
Proof.
  unfold Phone.validate, re_match. cbn [re_match_at].
  destruct (take_digits 10 s); [|reflexivity].
  cbn. now rewrite andb_true_r.
Qed.

(** What [Phone.validate] accepts: ten digits, with or without one
    newline after them. *)
Lemma validate_spec (s : string) :
  Phone.validate s = true <->
  exists d, is_ten_digits d = true
            /\ (s = d \/ s = d ++ String LF EmptyString).
Proof.
  rewrite validate_unfold. unfold is_ten_digits. split.
  - destruct (take_digits 10 s) as [rest|] eqn:Ht; [|discriminate].
    intros Hd. apply take_digits_app in Ht as (d & Hl & Hdig & ->).
    exists d. rewrite Hl, Hdig. split; [reflexivity|].
    apply at_dollar_spec in Hd as [-> | ->]; [left|right]; trivial.
    clear. induction d; simpl; congruence.
  - intros (d & Hd & Hs). apply andb_true_iff in Hd as [Hl Hdig].
    apply Nat.eqb_eq in Hl.
    assert (Ht : exists rest, take_digits 10 s = Some rest /\ at_dollar rest = true).
    { destruct Hs as [-> | ->].
      - exists EmptyString. split; [|reflexivity].
        apply take_digits_app. exists d. repeat split; trivial.
        clear. induction d; simpl; congruence.
      - exists (String LF EmptyString). split; [|reflexivity].
        apply take_digits_app. exists d. auto. }
    destruct Ht as (rest & -> & Hr). exact Hr.
Qed.

Lemma validate_ten_digits (s : string) :
  is_ten_digits s = true -> Phone.validate s = true.
Proof. intros H. apply validate_spec. exists s. auto. Qed.

Lemma phone_init_ok (s : string) :
  Phone.validate s = true -> Phone.init s = Ok s.
Proof. unfold Phone.init. now intros ->. Qed.

Lemma phone_init_raise (s : string) :
  Phone.validate s = false ->
  Phone.init s = Raise (ValueError "Phone number must be exactly 10 digits.").
Proof. unfold Phone.init. now intros ->. Qed.

(** C2 (the code departs from the claim): [Phone] accepts a string of
    eleven characters, ten digits followed by a newline, although it is
    not a string of exactly ten decimal digits: the [$] of the pattern
    also matches just before a final newline. *)
Theorem phone_accepts_trailing_newline :
  let s := "1234567890" ++ String LF EmptyString in
  String.length s = 11%nat
  /\ is_ten_digits s = false
  /\ Phone.validate s = true
  /\ Phone.init s = Ok s.
Proof. cbv zeta. repeat split. Qed.

(** ** The phones of a record stay valid *)

Lemma add_phone_cases (r : Record.t) (number : string) :
  (Phone.validate number = true
   /\ Record.add_phone r number =
      (Ok ("Phone number '" ++ number ++ "' added for " ++ Record.name r ++ "."),
       Record.set_phones r (Record.phones r ++ [number])))
  \/ (Phone.validate number = false
      /\ Record.add_phone r number =
         (Ok "Phone number must be exactly 10 digits.", r)).
Proof.
  unfold Record.add_phone.
  destruct (Phone.validate number) eqn:Hv.
  - left. now rewrite phone_init_ok.
  - right. now rewrite phone_init_raise.
Qed.

Lemma remove_first_valid (number : string) :
  forall ps ps',
    Record.remove_first number ps = Some ps' ->
    Forall (fun p => Phone.validate p = true) ps ->
    Forall (fun p => Phone.validate p = true) ps'.
Proof.
  induction ps as [|p ps IH]; simpl; intros ps' H Hall; [discriminate|].
  inversion Hall as [|? ? Hp Hps]; subst.
  destruct (String.eqb p number).
  - now injection H as <-.
  - destruct (Record.remove_first number ps) as [l|]; [|discriminate].
    injection H as <-. constructor; auto.
Qed.

Lemma edit_first_valid (old_number : pyval) (new_number : string) :
  forall ps ps',
    Record.edit_first old_number new_number ps = Some (Ok ps') ->
    Forall (fun p => Phone.validate p = true) ps ->
    Phone.validate new_number = true
    /\ Forall (fun p => Phone.validate p = true) ps'.
Proof.
  induction ps as [|p ps IH]; simpl; intros ps' H Hall; [discriminate|].
  inversion Hall as [|? ? Hp Hps]; subst.
  destruct (str_eq_pyval p old_number).
  - unfold Phone.init in H.
    destruct (Phone.validate new_number) eqn:Hv; simpl in H; [|discriminate].
    injection H as <-. split; [reflexivity|]. constructor; assumption.
  - destruct (Record.edit_first old_number new_number ps) as [[l|e]|];
      try discriminate.
    injection H as <-. destruct (IH l eq_refl Hps) as [Hv Hl].
    split; [assumption|]. constructor; assumption.
Qed.

Lemma apply_op_valid (r : Record.t) (op : record_op) :
  phones_valid r -> phones_valid (apply_op r op).
Proof.
  unfold phones_valid. intros Hr. destruct op as [n|n|o n]; simpl.
  - destruct (add_phone_cases r n) as [[Hv ->] | [_ ->]]; simpl; trivial.
    apply Forall_app. split; [assumption|]. constructor; auto.
  - unfold Record.remove_phone.
    destruct (Record.remove_first n (Record.phones r)) as [ps|] eqn:He;
      simpl; trivial.
    eapply remove_first_valid; eassumption.
  - unfold Record.edit_phone.
    destruct (Record.edit_first o n (Record.phones r)) as [[ps|e]|] eqn:He;
      simpl; trivial.
    + eapply edit_first_valid; eassumption.
    + destruct e; trivial.
Qed.

Lemma run_ops_valid (ops : list record_op) :
  forall r, phones_valid r -> phones_valid (run_ops ops r).
Proof.
  unfold run_ops. induction ops as [|op ops IH]; simpl; intros r Hr.
  - assumption.
  - apply IH. now apply apply_op_valid.
Qed.

(** C9: after any run of add_phone, remove_phone and edit_phone on a
    record constructed empty, every stored phone passes [Phone.validate];
    add_phone changes the phone list only by appending a number that
    passes validation, and edit_phone changes it only when the new number
    passes validation. *)
Theorem stored_phones_always_valid :
  (forall (name : string) (ops : list record_op),
      Forall (fun p => Phone.validate p = true)
        (Record.phones (run_ops ops (Record.init name))))
  /\ (forall (r : Record.t) (number : string),
         Record.phones (snd (Record.add_phone r number)) =
         if Phone.validate number then (Record.phones r ++ [number])%list
         else Record.phones r)
  /\ (forall (r : Record.t) (old_number : pyval) (new_number : string),
         Phone.validate new_number = false ->
         snd (Record.edit_phone r old_number new_number) = r).
Proof.
  split; [|split].
  - intros name ops. apply (run_ops_valid ops). constructor.
  - intros r number.
    destruct (add_phone_cases r number) as [[-> ->] | [-> ->]]; reflexivity.
  - intros r o n Hv. unfold Record.edit_phone.
    destruct (Record.edit_first o n (Record.phones r)) as [[ps|e]|] eqn:He;
      simpl; trivial.
    + exfalso.
      assert (Hgen : forall l l', Record.edit_first o n l = Some (Ok l') -> False).
      { induction l as [|p l IH]; simpl; intros l' H; [discriminate|].
        destruct (str_eq_pyval p o).
        - rewrite (phone_init_raise n Hv) in H. discriminate.
        - destruct (Record.edit_first o n l) as [[l0|e0]|]; try discriminate.
          eapply IH. reflexivity. }
      eapply Hgen. eassumption.
    + destruct e; reflexivity.
Qed.

Lemma stored_phones_always_valid_witness :
  Phone.validate "12345" = false
  /\ snd (Record.edit_phone (Record.mk "Bob" ["1111111111"] None)
            (PyStr "1111111111") "12345")
     = Record.mk "Bob" ["1111111111"] None.
Proof.
  split; [reflexivity|].
  apply (proj2 (proj2 stored_phones_always_valid)). reflexivity.
Defined.

(** ** Missing arguments *)

Lemma unpack2_short (parts : list string) :
  (List.length parts < 2)%nat ->
  exists msg, unpack2 parts = Raise (ValueError msg)
              /\ msg <> "Insufficient arguments provided.".
Proof.
  destruct parts as [|a [|b l]]; simpl; intros H; try lia;
    eexists; (split; [reflexivity | discriminate]).
Qed.

(** With fewer than two tokens, the three handlers that unpack two values
    return the text of the unpacking error and leave the book as it is. *)
Lemma too_few_tokens (args : string) (book : AddressBook) :
  (List.length (split_maxsplit1 args) < 2)%nat ->
  exists msg,
    msg <> "Insufficient arguments provided."
    /\ add_contact args book = (Ok msg, book)
    /\ change_phone args book = (Ok msg, book)
    /\ add_birthday args book = (Ok msg, book).
Proof.
  intros H. destruct (unpack2_short _ H) as (msg & Hu & Hne).
  exists msg. split; [assumption|].
  unfold add_contact, change_phone, add_birthday, input_error,
    add_contact_body, change_phone_body, add_birthday_body.
  rewrite Hu. auto.
Qed.

(** C3 (the code departs from the claim): add_contact and change_phone
    called with a single token do not return "Insufficient arguments
    provided."; unpacking raises a ValueError, whose text the wrapper
    returns. *)
Theorem one_token_message :
  add_contact "Alice" [] =
    (Ok "not enough values to unpack (expected 2, got 1)", [])
  /\ change_phone "Alice" [] =
    (Ok "not enough values to unpack (expected 2, got 1)", [])
  /\ add_contact "" [] =
    (Ok "not enough values to unpack (expected 2, got 0)", [])
  /\ "not enough values to unpack (expected 2, got 1)"
     <> "Insufficient arguments provided.".
Proof. repeat split. discriminate. Qed.

(** ** Projection of a 29 February birthday *)

Lemma leap_day_projection_fails (today b : date) :
  valid_date today = true ->
  month b = 2 -> day b = 29 ->
  is_leap (year today) = false ->
  project today b = Raise (ValueError "day is out of range for month").
Proof.
  unfold valid_date, project, replace_year, date_new, check_date_fields.
  intros Hv -> -> Hl.
  repeat (apply andb_true_iff in Hv as [Hv ?]).
  rewrite Hv. replace (year today <=? MAXYEAR) with true by auto.
  unfold days_in_month. rewrite Hl. reflexivity.
Qed.

(** C4 (the code departs from the claim): a stored birthday on 29
    February makes get_upcoming_birthdays raise when the year it is
    projected onto is not a leap year, both for the reference year and for
    the year after it. *)
Theorem leap_day_birthday_raises :
  let book := [("Bob", Record.mk "Bob" [] (Some (mkdate 2000 2 29)))] in
  Birthday.init "29.02.2000" = Ok (mkdate 2000 2 29)
  /\ get_upcoming_birthdays (mkdate 2025 3 1) 7 book =
     Raise (ValueError "day is out of range for month")
  /\ get_upcoming_birthdays (mkdate 2024 3 1) 7 book =
     Raise (ValueError "day is out of range for month").
Proof. cbv zeta. repeat split. Qed.

(** ** Setting a birthday *)

Lemma strptime_raises_value_error (s : string) (e : exn) :
  strptime_dmY s = Raise e -> exists msg, e = ValueError msg.
Proof.
  unfold strptime_dmY, date_new, check_date_fields.
  destruct (match_dmY s) as [[[[d m] y] rest]|].
  - destruct rest.
    + repeat match goal with
             | |- context [if ?b then _ else _] => destruct b
             end; simpl; intros [= <-]; eauto.
    + intros [= <-]; eauto.
  - intros [= <-]; eauto.
Qed.

Lemma birthday_init_cases (s : string) :
  (exists d, strptime_dmY s = Ok d /\ Birthday.init s = Ok d)
  \/ ((exists e, strptime_dmY s = Raise e)
      /\ Birthday.init s =
         Raise (ValueError "Invalid date format. Use DD.MM.YYYY")).
Proof.
  unfold Birthday.init, Birthday.validate.
  destruct (strptime_dmY s) as [d|e] eqn:Hs.
  - left. exists d. auto.
  - right. split; [eauto|].
    destruct (strptime_raises_value_error s e Hs) as [msg ->]. reflexivity.
Qed.

(** C10: add_birthday either stores the parsed date in place of whatever
    birthday the record had, or, when the text is not accepted, returns
    the validation message and leaves the record, its birthday included,
    as it was. *)
Theorem add_birthday_atomic (r : Record.t) (date_str : string) :
  match Birthday.init date_str with
  | Ok d =>
      Record.add_birthday r date_str =
        (Ok ("Birthday '" ++ date_str ++ "' set for " ++ Record.name r ++ "."),
         Record.mk (Record.name r) (Record.phones r) (Some d))
  | Raise _ =>
      Record.add_birthday r date_str =
        (Ok "Invalid date format. Use DD.MM.YYYY", r)
      /\ Record.birthday (snd (Record.add_birthday r date_str))
         = Record.birthday r
  end.
Proof.
  unfold Record.add_birthday.
  destruct (birthday_init_cases date_str) as [(d & _ & ->) | [_ ->]].
  - reflexivity.
  - split; reflexivity.
Qed.

(** ** The dictionary of the address book *)

Lemma dict_set_present (key : string) (r r0 : Record.t) :
  forall book,
    dict_get book key = Some r0 ->
    dict_get (dict_set key r book) key = Some r
    /\ map fst (dict_set key r book) = map fst book
    /\ (forall k, k <> key -> dict_get (dict_set key r book) k = dict_get book k).
Proof.
  induction book as [|[k v] book IH]; simpl; intros H; [discriminate|].
  destruct (String.eqb k key) eqn:Hk.
  - apply String.eqb_eq in Hk. subst k. simpl.
    rewrite String.eqb_refl. repeat split.
    intros k' Hne. destruct (String.eqb key k') eqn:Hk'; [|reflexivity].
    apply String.eqb_eq in Hk'. congruence.
  - destruct (IH H) as (Hg & Hf & Ho). simpl. rewrite Hk.
    repeat split; [assumption | now f_equal |].
    intros k' Hne. destruct (String.eqb k k'); auto.
Qed.

Lemma dict_set_same (key : string) (r : Record.t) :
  forall book, dict_get book key = Some r -> dict_set key r book = book.
Proof.
  induction book as [|[k v] book IH]; simpl; intros H; [discriminate|].
  destruct (String.eqb k key).
  - now injection H as ->.
  - now rewrite IH.
Qed.

Lemma dict_set_absent (key : string) (r : Record.t) :
  forall book,
    dict_get book key = None -> dict_set key r book = (book ++ [(key, r)])%list.
Proof.
  induction book as [|[k v] book IH]; simpl; intros H; [reflexivity|].
  destruct (String.eqb k key); [discriminate|]. now rewrite IH.
Qed.

Lemma dict_get_app_absent (key : string) (r : Record.t) :
  forall book,
    dict_get book key = None ->
    dict_get (book ++ [(key, r)])%list key = Some r.
Proof.
  induction book as [|[k v] book IH]; simpl; intros H.
  - now rewrite String.eqb_refl.
  - destruct (String.eqb k key); [discriminate | auto].
Qed.

(** ** Splitting the argument string *)

Lemma span_token_no_space :
  forall s tok rest, span_token s = (tok, rest) -> no_space tok = true.
Proof.
  induction s as [|c t IH]; simpl; intros tok rest H.
  - now injection H as <- <-.
  - destruct (isspace c) eqn:Hc.
    + now injection H as <- <-.
    + destruct (span_token t) as [tok' rest'] eqn:Ht.
      injection H as <- <-. unfold no_space in *. simpl.
      rewrite Hc. simpl. eapply IH. reflexivity.
Qed.

Lemma split_first_no_space (args name phone : string) :
  split_maxsplit1 args = [name; phone] -> no_space name = true.
Proof.
  unfold split_maxsplit1. destruct (lstrip args) as [|c t]; [discriminate|].
  destruct (span_token (String c t)) as [tok rest] eqn:Ht.
  destruct (lstrip rest); intros [= <- <-].
  eapply span_token_no_space. eassumption.
Qed.

(** ** Searching for the message of a rejected phone number *)

Lemma prefix_cons (a b : ascii) (s1 s2 : string) :
  prefix (String a s1) (String b s2) = (Ascii.eqb a b && prefix s1 s2)%bool.
Proof.
  simpl. destruct (ascii_dec a b) as [->|Hne].
  - now rewrite Ascii.eqb_refl.
  - apply Ascii.eqb_neq in Hne. now rewrite Hne.
Qed.

Lemma str_in_cons (needle : string) (c : ascii) (t : string) :
  str_in needle (String c t) =
  (prefix needle (String c t) || str_in needle t)%bool.
Proof. reflexivity. Qed.

Lemma str_in_self (s : string) : str_in s s = true.
Proof.
  assert (H : prefix s s = true).
  { induction s as [|c t IH]; [reflexivity|].
    now rewrite prefix_cons, Ascii.eqb_refl. }
  destruct s; simpl in *; [reflexivity|]. now rewrite H.
Qed.

Lemma str_forall_app (p : ascii -> bool) (a b : string) :
  str_forall p (a ++ b) = (str_forall p a && str_forall p b)%bool.
Proof.
  induction a as [|c t IH]; simpl; [reflexivity|].
  now rewrite IH, andb_assoc.
Qed.

Lemma str_forall_impl (p q : ascii -> bool) (s : string) :
  (forall c, p c = true -> q c = true) ->
  str_forall p s = true -> str_forall q s = true.
Proof.
  intros Hpq. induction s as [|c t IH]; simpl; [trivial|].
  intros H. apply andb_true_iff in H as [Hc Ht].
  now rewrite (Hpq c Hc), IH.
Qed.

Lemma str_in_skip (s rest : string) :
  str_forall not_P s = true ->
  str_in digits_message (s ++ rest) = str_in digits_message rest.
Proof.
  induction s as [|c t IH]; intros H; [reflexivity|].
  simpl in H. apply andb_true_iff in H as [Hc Ht].
  change (String c t ++ rest) with (String c (t ++ rest)).
  rewrite str_in_cons, (IH Ht).
  unfold digits_message at 1. rewrite prefix_cons.
  unfold not_P in Hc. apply negb_true_iff in Hc. now rewrite Hc.
Qed.

Lemma no_space_not_prefixed (s : string) :
  no_space s = true -> prefix digits_message s = false.
Proof.
  unfold no_space, digits_message. intros H.
  destruct s as [|c1 [|c2 [|c3 [|c4 [|c5 [|c6 t]]]]]];
    rewrite ?prefix_cons; cbn [prefix]; rewrite ?andb_false_r; trivial.
  destruct (Ascii.eqb_spec " " c6) as [<-|_].
  - simpl in H. rewrite !andb_false_r in H. discriminate.
  - cbn [andb]. now rewrite !andb_false_r.
Qed.

Lemma str_in_no_space (s : string) :
  no_space s = true -> str_in digits_message s = false.
Proof.
  induction s as [|c t IH]; intros H; [reflexivity|].
  rewrite str_in_cons, (no_space_not_prefixed _ H). simpl.
  apply IH. unfold no_space in *. simpl in H.
  now apply andb_true_iff in H.
Qed.

Lemma valid_phone_not_P (phone : string) :
  Phone.validate phone = true -> str_forall not_P phone = true.
Proof.
  intros H. apply validate_spec in H as (d & Hd & Hs).
  unfold is_ten_digits in Hd. apply andb_true_iff in Hd as [_ Hd].
  assert (Hdp : str_forall not_P d = true).
  { revert Hd. apply str_forall_impl. intros c Hc. unfold not_P.
    destruct (Ascii.eqb_spec "P" c) as [<-|_]; [discriminate | reflexivity]. }
  destruct Hs as [-> | ->]; [assumption|].
  now rewrite str_forall_app, Hdp.
Qed.

(** The text add_phone returns for an accepted number does not contain
    the message of a rejected one. *)
Lemma added_message_clean (name phone : string) :
  no_space name = true ->
  Phone.validate phone = true ->
  str_in digits_message
    ("Phone number '" ++ phone ++ "' added for " ++ name ++ ".") = false.
Proof.
  intros Hn Hp.
  change ("Phone number '" ++ phone ++ "' added for " ++ name ++ ".")
    with (String "P" ("hone number '" ++ phone ++ "' added for " ++ name ++ ".")).
  rewrite str_in_cons.
  replace (prefix digits_message
             (String "P" ("hone number '" ++ phone ++ "' added for " ++ name ++ ".")))
    with false by reflexivity.
  cbn [orb].
  rewrite (str_in_skip "hone number '") by reflexivity.
  rewrite (str_in_skip phone) by now apply valid_phone_not_P.
  rewrite (str_in_skip "' added for ") by reflexivity.
  apply str_in_no_space. unfold no_space in *.
  now rewrite str_forall_app, Hn.
Qed.

(** ** Adding a contact *)

(** C5: for a name that the book does not hold, add_contact with a
    rejected phone returns the validation message alone and leaves the
    book as it was; with an accepted phone it stores a new record holding
    that phone under the name and returns the creation text followed by
    the text of add_phone. *)
Theorem add_contact_new_name (args name phone : string) (book : AddressBook) :
  split_maxsplit1 args = [name; phone] ->
  find book name = None ->
  if Phone.validate phone
  then
    add_contact args book =
      (Ok ("New contact '" ++ name ++ "' added with phone number '" ++ phone
           ++ "'." ++ String LF
                ("Phone number '" ++ phone ++ "' added for " ++ name ++ ".")),
       (book ++ [(name, Record.mk name [phone] None)])%list)
    /\ find (book ++ [(name, Record.mk name [phone] None)])%list name
       = Some (Record.mk name [phone] None)
  else
    add_contact args book = (Ok "Phone number must be exactly 10 digits.", book)
    /\ find (snd (add_contact args book)) name = None.
Proof.
  intros Hs Hf.
  unfold add_contact, input_error, add_contact_body.
  rewrite Hs. cbn [unpack2]. rewrite Hf.
  destruct (add_phone_cases (Record.init name) phone) as [[Hv ->] | [Hv ->]];
    rewrite Hv.
  - cbn [Record.init Record.name Record.phones Record.set_phones
         Record.birthday app].
    change "Phone number must be exactly 10 digits." with digits_message.
    rewrite (added_message_clean name phone
               (split_first_no_space _ _ _ Hs) Hv).
    unfold add_record. cbn [Record.name].
    rewrite (dict_set_absent name _ book Hf).
    split; [reflexivity|]. now apply dict_get_app_absent.
  - change "Phone number must be exactly 10 digits." with digits_message.
    rewrite str_in_self. split; [reflexivity | exact Hf].
Qed.

Lemma add_contact_new_name_witness :
  split_maxsplit1 "Alice 12345" = ["Alice"; "12345"]
  /\ find [] "Alice" = None
  /\ add_contact "Alice 12345" [] =
     (Ok "Phone number must be exactly 10 digits.", [])
  /\ find (snd (add_contact "Alice 12345" [])) "Alice" = None.
Proof.
  split; [reflexivity|]. split; [reflexivity|].
  exact (add_contact_new_name "Alice 12345" "Alice" "12345" []
           eq_refl eq_refl).
Defined.

(** ** Changing a phone *)

(** C8: for a record that change_phone finds, a record with phones gets
    the new, accepted number at position 0 and keeps every other phone,
    its name and its birthday, while the other records of the book are
    untouched; a record without phones is left as it is and the text
    returned is that of a number not found. *)
Theorem change_phone_first (args name phone : string) (book : AddressBook)
  (record : Record.t) :
  split_maxsplit1 args = [name; phone] ->
  find book name = Some record ->
  match Record.phones record with
  | p0 :: others =>
      Phone.validate phone = true ->
      exists book',
        change_phone args book =
          (Ok ("Phone number '" ++ p0 ++ "' edited to '" ++ phone ++ "' for "
               ++ Record.name record ++ "."),
           book')
        /\ find book' name =
           Some (Record.mk (Record.name record) (phone :: others)
                   (Record.birthday record))
        /\ (forall k, k <> name -> find book' k = find book k)
        /\ map fst book' = map fst book
  | [] =>
      change_phone args book =
        (Ok ("Phone number 'None' not found for " ++ Record.name record ++ "."),
         book)
  end.
Proof.
  intros Hs Hf.
  unfold change_phone, input_error, change_phone_body.
  rewrite Hs. cbn [unpack2]. rewrite Hf.
  unfold Record.edit_phone.
  destruct (Record.phones record) as [|p0 others] eqn:Hp.
  - cbn [Record.edit_first pystr]. now rewrite (dict_set_same name record book Hf).
  - intros Hv. cbn [Record.edit_first str_eq_pyval pystr].
    rewrite String.eqb_refl, (phone_init_ok phone Hv). cbn [bind].
    eexists. split; [reflexivity|].
    unfold find.
    destruct (dict_set_present name
                (Record.set_phones record (phone :: others)) record book Hf)
      as (Hg & Hk & Ho).
    auto.
Qed.

Lemma change_phone_first_witness :
  let book := [("Bob", Record.mk "Bob" ["1111111111"; "3333333333"] None)] in
  split_maxsplit1 "Bob 2222222222" = ["Bob"; "2222222222"]
  /\ find book "Bob" = Some (Record.mk "Bob" ["1111111111"; "3333333333"] None)
  /\ Phone.validate "2222222222" = true
  /\ exists book',
      change_phone "Bob 2222222222" book =
        (Ok "Phone number '1111111111' edited to '2222222222' for Bob.", book')
      /\ find book' "Bob" =
         Some (Record.mk "Bob" ["2222222222"; "3333333333"] None)
      /\ (forall k, k <> "Bob" -> find book' k = find book k)
      /\ map fst book' = map fst book.
Proof.
  cbv zeta. split; [reflexivity|]. split; [reflexivity|]. split; [reflexivity|].
  exact (change_phone_first "Bob 2222222222" "Bob" "2222222222"
           [("Bob", Record.mk "Bob" ["1111111111"; "3333333333"] None)]
           (Record.mk "Bob" ["1111111111"; "3333333333"] None)
           eq_refl eq_refl eq_refl).
Defined.

(** ** Parsing and formatting a birthday *)

Lemma digit_cases (c : ascii) :
  is_digit c = true ->
  c = "0"%char \/ c = "1"%char \/ c = "2"%char \/ c = "3"%char
  \/ c = "4"%char \/ c = "5"%char \/ c = "6"%char \/ c = "7"%char
  \/ c = "8"%char \/ c = "9"%char.
Proof.
  destruct c as [[] [] [] [] [] [] [] []]; intros H;
    try discriminate H; tauto.
Qed.

Lemma digit_val_char (c : ascii) :
  is_digit c = true ->
  0 <= digit_val c <= 9 /\ digit_char (digit_val c) = c.
Proof.
  intros H.
  destruct (digit_cases c H) as [->|[->|[->|[->|[->|[->|[->|[->|[->| ->]]]]]]]]];
    (split; [cbv; split; discriminate | reflexivity]).
Qed.

Lemma alts_d_head (d1 d2 : ascii) (rest : string) :
  is_digit d1 = true -> is_digit d2 = true ->
  1 <= num2 d1 d2 <= 31 ->
  exists tl, alts_d (String d1 (String d2 rest)) = (num2 d1 d2, rest) :: tl.
Proof.
  intros H1 H2.
  destruct (digit_cases d1 H1) as [->|[->|[->|[->|[->|[->|[->|[->|[->| ->]]]]]]]]];
    destruct (digit_cases d2 H2) as [->|[->|[->|[->|[->|[->|[->|[->|[->| ->]]]]]]]]];
    cbv [num2 digit_val nat_of_ascii]; simpl; intros Hr;
    try lia; eexists; reflexivity.
Qed.

Lemma alts_m_head (m1 m2 : ascii) (rest : string) :
  is_digit m1 = true -> is_digit m2 = true ->
  1 <= num2 m1 m2 <= 12 ->
  exists tl, alts_m (String m1 (String m2 rest)) = (num2 m1 m2, rest) :: tl.
Proof.
  intros H1 H2.
  destruct (digit_cases m1 H1) as [->|[->|[->|[->|[->|[->|[->|[->|[->| ->]]]]]]]]];
    destruct (digit_cases m2 H2) as [->|[->|[->|[->|[->|[->|[->|[->|[->| ->]]]]]]]]];
    cbv [num2 digit_val nat_of_ascii]; simpl; intros Hr;
    try lia; eexists; reflexivity.
Qed.

Lemma valid_date_new (d : date) :
  valid_date d = true -> date_new (year d) (month d) (day d) = Ok d.
Proof.
  unfold valid_date, date_new, check_date_fields. intros H.
  repeat (apply andb_true_iff in H as [H ?]).
  repeat match goal with
         | Hb : _ = true |- _ => rewrite Hb; clear Hb
         end.
  destruct d; reflexivity.
Qed.

Lemma valid_date_bounds (d : date) :
  valid_date d = true ->
  1 <= year d <= 9999 /\ 1 <= month d <= 12
  /\ 1 <= day d <= days_in_month (year d) (month d)
  /\ days_in_month (year d) (month d) <= 31.
Proof.
  unfold valid_date, MINYEAR, MAXYEAR. intros H.
  repeat (apply andb_true_iff in H as [H ?]).
  assert (Hm : 1 <= month d <= 12) by lia.
  assert (Hdim : days_in_month (year d) (month d) <= 31).
  { unfold days_in_month.
    destruct ((month d =? 2) && is_leap (year d))%bool; [lia|].
    assert (Hc : month d = 1 \/ month d = 2 \/ month d = 3 \/ month d = 4
                 \/ month d = 5 \/ month d = 6 \/ month d = 7 \/ month d = 8
                 \/ month d = 9 \/ month d = 10 \/ month d = 11
                 \/ month d = 12) by lia.
    destruct Hc as [->|[->|[->|[->|[->|[->|[->|[->|[->|[->|[->| ->]]]]]]]]]]];
      simpl; lia. }
  lia.
Qed.

Lemma match_dmY_padded (d1 d2 m1 m2 y1 y2 y3 y4 : ascii) :
  str_forall is_digit (String d1 (String d2 (String m1 (String m2
    (String y1 (String y2 (String y3 (String y4 EmptyString)))))))) = true ->
  1 <= num2 d1 d2 <= 31 ->
  1 <= num2 m1 m2 <= 12 ->
  match_dmY (dmY_text d1 d2 m1 m2 y1 y2 y3 y4) =
  Some (num2 d1 d2, num2 m1 m2, num4 y1 y2 y3 y4, EmptyString).
Proof.
  simpl. intros H Hd Hm.
  repeat (apply andb_true_iff in H as [?Hc H]).
  unfold match_dmY, dmY_text.
  destruct (alts_d_head d1 d2
              (String "." (String m1 (String m2 (String "."
                 (String y1 (String y2 (String y3 (String y4 EmptyString))))))))
              Hc Hc0 Hd) as [tl ->].
  cbn [first_match match_dot Ascii.eqb Bool.eqb].
  destruct (alts_m_head m1 m2
              (String "." (String y1 (String y2 (String y3 (String y4 EmptyString)))))
              Hc1 Hc2 Hm) as [tl' ->].
  cbn [first_match match_dot Ascii.eqb Bool.eqb match_Y].
  rewrite Hc3, Hc4, Hc5, Hc6. reflexivity.
Qed.

Lemma pad2_digits (a b : ascii) (k : string) :
  is_digit a = true -> is_digit b = true ->
  pad2 (num2 a b) k = String a (String b k).
Proof.
  intros Ha Hb.
  destruct (digit_val_char a Ha) as [Hra Hca].
  destruct (digit_val_char b Hb) as [Hrb Hcb].
  unfold pad2, num2.
  replace ((10 * digit_val a + digit_val b) / 10 mod 10) with (digit_val a)
    by (Z.div_mod_to_equations; lia).
  replace ((10 * digit_val a + digit_val b) mod 10) with (digit_val b)
    by (Z.div_mod_to_equations; lia).
  now rewrite Hca, Hcb.
Qed.

Lemma pad4_digits (a b c d : ascii) (k : string) :
  is_digit a = true -> is_digit b = true ->
  is_digit c = true -> is_digit d = true ->
  pad4 (num4 a b c d) k = String a (String b (String c (String d k))).
Proof.
  intros Ha Hb Hc Hd.
  destruct (digit_val_char a Ha) as [Hra Hca].
  destruct (digit_val_char b Hb) as [Hrb Hcb].
  destruct (digit_val_char c Hc) as [Hrc Hcc].
  destruct (digit_val_char d Hd) as [Hrd Hcd].
  unfold pad4, pad2, num4.
  set (n := 1000 * digit_val a + 100 * digit_val b + 10 * digit_val c
            + digit_val d).
  replace (n / 1000 mod 10) with (digit_val a)
    by (subst n; Z.div_mod_to_equations; lia).
  replace (n / 100 mod 10) with (digit_val b)
    by (subst n; Z.div_mod_to_equations; lia).
  replace (n / 10 mod 10) with (digit_val c)
    by (subst n; Z.div_mod_to_equations; lia).
  replace (n mod 10) with (digit_val d)
    by (subst n; Z.div_mod_to_equations; lia).
  now rewrite Hca, Hcb, Hcc, Hcd.
Qed.

Lemma year_text_four_digits (n : Z) (k : string) :
  1000 <= n -> year_text n k = pad4 n k.
Proof.
  intros H. unfold year_text.
  destruct (Z.ltb_spec n 10); [lia|].
  destruct (Z.ltb_spec n 100); [lia|].
  destruct (Z.ltb_spec n 1000); [lia | reflexivity].
Qed.

(** C7, as amended: a text DD.MM.YYYY of eight digits that denotes a date
    the calendar has is accepted by [Birthday], which stores that date;
    when the year is 1000 or later, show_birthday formats the stored date
    back to the very same text. *)
Theorem birthday_round_trip (d1 d2 m1 m2 y1 y2 y3 y4 : ascii) (r : Record.t) :
  let text := dmY_text d1 d2 m1 m2 y1 y2 y3 y4 in
  let stored := mkdate (num4 y1 y2 y3 y4) (num2 m1 m2) (num2 d1 d2) in
  str_forall is_digit (String d1 (String d2 (String m1 (String m2
    (String y1 (String y2 (String y3 (String y4 EmptyString)))))))) = true ->
  valid_date stored = true ->
  Birthday.init text = Ok stored
  /\ (1000 <= num4 y1 y2 y3 y4 ->
      Record.show_birthday (snd (Record.add_birthday r text)) = text).
Proof.
  intros text stored Hdig Hv.
  destruct (valid_date_bounds stored Hv) as (_ & Hm & Hd & Hdim).
  assert (Hp : strptime_dmY text = Ok stored).
  { unfold strptime_dmY, text.
    rewrite (match_dmY_padded d1 d2 m1 m2 y1 y2 y3 y4 Hdig);
      [| subst stored; simpl in *; lia | exact Hm].
    exact (valid_date_new stored Hv). }
  assert (Hi : Birthday.init text = Ok stored).
  { destruct (birthday_init_cases text) as [(d & Hs & Hi) | [[e He] _]];
      congruence. }
  split; [exact Hi|].
  intros Hy.
  unfold Record.add_birthday. rewrite Hi.
  cbn [snd Record.show_birthday Record.set_birthday Record.birthday].
  simpl in Hdig. repeat (apply andb_true_iff in Hdig as [?Hc Hdig]).
  unfold strftime_dmY, stored, text, dmY_text. cbn [day month year].
  rewrite (year_text_four_digits _ _ Hy).
  rewrite pad2_digits, pad2_digits, pad4_digits by assumption.
  reflexivity.
Qed.

Lemma birthday_round_trip_witness :
  str_forall is_digit "29022024" = true
  /\ valid_date (mkdate 2024 2 29) = true
  /\ Birthday.init "29.02.2024" = Ok (mkdate 2024 2 29)
  /\ (1000 <= 2024 ->
      Record.show_birthday
        (snd (Record.add_birthday (Record.init "Bob") "29.02.2024"))
      = "29.02.2024").
Proof.
  split; [reflexivity|]. split; [reflexivity|].
  exact (birthday_round_trip "2" "9" "0" "2" "2" "0" "2" "4"
           (Record.init "Bob") eq_refl eq_refl).
Defined.

(** C7, as the claim states it, fails for a year below 1000: the text
    28.02.0987 is accepted, and show_birthday gives the stored date back
    as 28.02.987, the year without its leading zero. *)
Lemma birthday_round_trip_below_1000 :
  str_forall is_digit "28020987" = true
  /\ valid_date (mkdate 987 2 28) = true
  /\ Birthday.init "28.02.0987" = Ok (mkdate 987 2 28)
  /\ Record.show_birthday
       (snd (Record.add_birthday (Record.init "Bob") "28.02.0987"))
     = "28.02.987"
  /\ Record.show_birthday
       (snd (Record.add_birthday (Record.init "Bob") "28.02.0987"))
     <> "28.02.0987".
Proof. repeat split. discriminate. Qed.

(** ** Ordinals and dates *)

Lemma check_iter (lo : Z) (count : N) :
  fst (N.iter count check_step (lo, true)) = lo + Z.of_N count
  /\ (snd (N.iter count check_step (lo, true)) = true ->
      forall n, lo <= n < lo + Z.of_N count -> ord_round_trip n = true).
Proof.
  induction count as [|k [IHf IHs]] using N.peano_ind.
  - simpl. split; [lia|]. intros _ n Hn. lia.
  - rewrite N.iter_succ. unfold check_step at 1 3. cbn [fst snd].
    rewrite IHf. split; [lia|].
    intros H n Hn. apply andb_true_iff in H as [Hs Hk].
    destruct (Z.eq_dec n (lo + Z.of_N k)) as [->|Hne]; [exact Hk|].
    apply IHs; [exact Hs | lia].
Qed.

Lemma check_from_sound (lo : Z) (count : N) :
  check_from lo count = true ->
  forall n, lo <= n < lo + Z.of_N count -> ord_round_trip n = true.
Proof. exact (proj2 (check_iter lo count)). Qed.

Lemma cycle_check : check_from 1 146097 = true.
Proof. vm_compute. reflexivity. Qed.

Lemma cycle_round_trip (n : Z) :
  1 <= n <= DI400Y -> ord_round_trip n = true.
Proof.
  intros Hn. apply (check_from_sound 1 146097 cycle_check).
  unfold DI400Y in Hn. clear -Hn. lia.
Qed.

Lemma is_leap_shift (y q : Z) : is_leap (y + 400 * q) = is_leap y.
Proof.
  unfold is_leap.
  replace ((y + 400 * q) mod 4) with (y mod 4)
    by (Z.div_mod_to_equations; lia).
  replace ((y + 400 * q) mod 100) with (y mod 100)
    by (Z.div_mod_to_equations; lia).
  replace ((y + 400 * q) mod 400) with (y mod 400)
    by (Z.div_mod_to_equations; lia).
  reflexivity.
Qed.


Lemma ymd2ord_shift (y m d q : Z) :
  ymd2ord (y + 400 * q) m d = ymd2ord y m d + DI400Y * q.
Proof.
  unfold ymd2ord, days_before_month, days_before_year, DI400Y.
  rewrite is_leap_shift. cbv zeta.
  replace ((y + 400 * q - 1) / 4) with ((y - 1) / 4 + 100 * q)
    by (Z.div_mod_to_equations; lia).
  replace ((y + 400 * q - 1) / 100) with ((y - 1) / 100 + 4 * q)
    by (Z.div_mod_to_equations; lia).
  replace ((y + 400 * q - 1) / 400) with ((y - 1) / 400 + q)
    by (Z.div_mod_to_equations; lia).
  lia.
Qed.

Lemma ord2ymd_shift (n : Z) :
  let q := (n - 1) / DI400Y in
  let r := (n - 1) mod DI400Y in
  ord2ymd n =
  let '(y, m, d) := ord2ymd (r + 1) in (y + 400 * q, m, d).
Proof.
  intros q r. unfold ord2ymd.
  replace (r + 1 - 1) with r by lia.
  assert (Hr : 0 <= r < DI400Y) by (apply Z.mod_pos_bound; reflexivity).
  rewrite (Z.div_small r DI400Y Hr), (Z.mod_small r DI400Y Hr).
  fold q. fold r. clearbody q r. clear Hr.
  cbv zeta.
  generalize (r / DI100Y) as n100.
  generalize (r mod DI100Y / DI4Y) as n4.
  generalize ((r mod DI100Y) mod DI4Y / 365) as n1.
  generalize (((r mod DI100Y) mod DI4Y) mod 365) as k.
  intros k n1 n4 n100.
  destruct ((n1 =? 4) || (n100 =? 4))%bool.
  - f_equal. f_equal. lia.
  - match goal with
    | |- context [if ?b then _ else _] => destruct b
    end; f_equal; f_equal; lia.
Qed.

Lemma toordinal_fromordinal (n : Z) : toordinal (fromordinal n) = n.
Proof.
  unfold toordinal, fromordinal.
  pose proof (ord2ymd_shift n) as Hs. cbv zeta in Hs. rewrite Hs.
  set (q := (n - 1) / DI400Y). set (r := (n - 1) mod DI400Y).
  assert (Hr : 0 <= r < DI400Y) by (apply Z.mod_pos_bound; reflexivity).
  assert (Hc : ord_round_trip (r + 1) = true) by (apply cycle_round_trip; lia).
  unfold ord_round_trip in Hc.
  destruct (ord2ymd (r + 1)) as [[y m] d]. cbn [year month day].
  repeat (apply andb_true_iff in Hc as [Hc ?]).
  apply Z.eqb_eq in Hc. rewrite ymd2ord_shift, Hc.
  pose proof (Z.div_mod (n - 1) DI400Y ltac:(discriminate)). subst q r. lia.
Qed.

Lemma days_before_year_bounds (y : Z) :
  1 <= y <= 9999 ->
  0 <= days_before_year y
  /\ days_before_year y + 365 + (if is_leap y then 1 else 0) <= MAXORDINAL.
Proof.
  intros Hy. unfold days_before_year, MAXORDINAL. cbv zeta.
  destruct (Z.eq_dec y 9999) as [->|Hne].
  - vm_compute. split; discriminate.
  - destruct (is_leap y); split; Z.div_mod_to_equations; lia.
Qed.

Lemma days_in_year_bounds (y m d : Z) :
  1 <= m <= 12 -> 1 <= d <= days_in_month y m ->
  1 <= days_before_month y m + d <= 365 + (if is_leap y then 1 else 0).
Proof.
  intros Hm. unfold days_before_month, days_in_month.
  assert (Hc : m = 1 \/ m = 2 \/ m = 3 \/ m = 4 \/ m = 5 \/ m = 6 \/ m = 7
               \/ m = 8 \/ m = 9 \/ m = 10 \/ m = 11 \/ m = 12) by lia.
  destruct Hc as [->|[->|[->|[->|[->|[->|[->|[->|[->|[->|[->| ->]]]]]]]]]]];
    destruct (is_leap y);
    cbv [DAYS_BEFORE_MONTH DAYS_IN_MONTH];
    cbn [Z.ltb Z.eqb Z.compare Pos.compare Pos.compare_cont Pos.eqb andb];
    lia.
Qed.

Lemma toordinal_bounds (d : date) :
  valid_date d = true -> 1 <= toordinal d <= MAXORDINAL.
Proof.
  intros Hv. destruct (valid_date_bounds d Hv) as (Hy & Hm & Hd & _).
  pose proof (days_before_year_bounds (year d) Hy).
  pose proof (days_in_year_bounds (year d) (month d) (day d) Hm Hd).
  unfold toordinal, ymd2ord. lia.
Qed.

Lemma adjust_for_weekend_ok (p : date) :
  valid_date p = true ->
  exists c, adjust_for_weekend p = Ok c
            /\ toordinal c = toordinal p + weekend_shift p.
Proof.
  intros Hv. pose proof (toordinal_bounds p Hv) as Hb.
  unfold adjust_for_weekend, weekend_shift, weekday, date_add_days, MAXORDINAL in *.
  destruct (Z.eqb_spec ((toordinal p + 6) mod 7) 5) as [H5|H5].
  - replace ((0 <? toordinal p + 2) && (toordinal p + 2 <=? 3652059))%bool
      with true
      by (symmetry; apply andb_true_iff; split;
          [apply Z.ltb_lt | apply Z.leb_le]; Z.div_mod_to_equations; lia).
    eexists. split; [reflexivity | apply toordinal_fromordinal].
  - destruct (Z.eqb_spec ((toordinal p + 6) mod 7) 6) as [H6|H6].
    + replace ((0 <? toordinal p + 1) && (toordinal p + 1 <=? 3652059))%bool
        with true
        by (symmetry; apply andb_true_iff; split;
            [apply Z.ltb_lt | apply Z.leb_le]; Z.div_mod_to_equations; lia).
      eexists. split; [reflexivity | apply toordinal_fromordinal].
    + exists p. split; [reflexivity | lia].
Qed.

Lemma date_new_valid (y m d : Z) (p : date) :
  date_new y m d = Ok p -> valid_date p = true /\ p = mkdate y m d.
Proof.
  unfold date_new, check_date_fields, valid_date.
  destruct ((MINYEAR <=? y) && (y <=? MAXYEAR))%bool eqn:H1; simpl; [|discriminate].
  destruct ((1 <=? m) && (m <=? 12))%bool eqn:H2; simpl; [|discriminate].
  destruct ((1 <=? d) && (d <=? days_in_month y m))%bool eqn:H3; simpl;
    [|discriminate].
  intros [= <-]. simpl.
  apply andb_true_iff in H1 as [-> ->], H2 as [-> ->], H3 as [-> ->].
  auto.
Qed.

Lemma project_valid (today b p : date) :
  project today b = Ok p -> valid_date p = true.
Proof.
  unfold project, replace_year.
  destruct (date_new (year today) (month b) (day b)) as [p0|e] eqn:H0;
    simpl; [|discriminate].
  destruct (date_lt p0 today).
  - intros H. now apply date_new_valid in H.
  - intros [= <-]. now apply date_new_valid in H0.
Qed.

(** ** Upcoming birthdays *)


(** * Further properties of the source *)

(** ** Phones of a record *)

(** X1: [Phone.validate] accepts exactly the strings made of ten decimal
    digits, alone or followed by one newline; [Phone] is constructed, with
    the string as its value, for exactly those. *)
Theorem phone_validate_exactly (s : string) :
  (Phone.validate s = true <->
   exists d, is_ten_digits d = true
             /\ (s = d \/ s = d ++ String LF EmptyString))
  /\ (Phone.init s = Ok s <-> Phone.validate s = true).
Proof.
  split; [apply validate_spec|].
  unfold Phone.init. destruct (Phone.validate s); simpl; split;
    intros H; trivial; discriminate.
Qed.

Lemma remove_first_split (number : string) :
  forall l1 l2,
    ~ In number l1 ->
    Record.remove_first number (l1 ++ number :: l2) = Some (l1 ++ l2)%list.
Proof.
  induction l1 as [|p l1 IH]; simpl; intros l2 Hn.
  - now rewrite String.eqb_refl.
  - destruct (String.eqb_spec p number) as [->|Hne].
    + exfalso. apply Hn. now left.
    + rewrite IH; [reflexivity|]. intros H. apply Hn. now right.
Qed.

Lemma remove_first_absent (number : string) :
  forall l, ~ In number l -> Record.remove_first number l = None.
Proof.
  induction l as [|p l IH]; simpl; intros Hn; [reflexivity|].
  destruct (String.eqb_spec p number) as [->|Hne].
  - exfalso. apply Hn. now left.
  - rewrite IH; [reflexivity|]. intros H. apply Hn. now right.
Qed.

(** X2: remove_phone takes out the first phone equal to the number and
    nothing else: the phones before it and after it, later duplicates of
    the number included, stay in their order. *)
Theorem remove_phone_first_occurrence (r : Record.t) (number : string)
  (l1 l2 : list string) :
  Record.phones r = (l1 ++ number :: l2)%list ->
  ~ In number l1 ->
  Record.remove_phone r number =
    (Ok ("Phone number '" ++ number ++ "' removed for " ++ Record.name r ++ "."),
     Record.mk (Record.name r) (l1 ++ l2) (Record.birthday r)).
Proof.
  intros Hp Hn. unfold Record.remove_phone.
  now rewrite Hp, (remove_first_split number l1 l2 Hn).
Qed.

Lemma remove_phone_first_occurrence_witness :
  let r := Record.mk "Bob" ["1111111111"; "2222222222"; "1111111111"; "2222222222"] None in
  Record.phones r = (["1111111111"] ++ "2222222222" :: ["1111111111"; "2222222222"])%list
  /\ ~ In "2222222222" ["1111111111"]
  /\ Record.remove_phone r "2222222222" =
     (Ok "Phone number '2222222222' removed for Bob.",
      Record.mk "Bob" ["1111111111"; "1111111111"; "2222222222"] None).
Proof.
  cbv zeta.
  assert (Hn : ~ In "2222222222" ["1111111111"]).
  { simpl. intros [H|[]]. discriminate H. }
  split; [reflexivity|]. split; [exact Hn|].
  exact (remove_phone_first_occurrence
           (Record.mk "Bob" ["1111111111"; "2222222222"; "1111111111"; "2222222222"] None)
           "2222222222" ["1111111111"] ["1111111111"; "2222222222"] eq_refl Hn).
Defined.

(** X3: remove_phone with a number the record does not hold returns the
    text of a number not found and leaves the record as it is. *)
Theorem remove_phone_absent (r : Record.t) (number : string) :
  ~ In number (Record.phones r) ->
  Record.remove_phone r number =
    (Ok ("Phone number '" ++ number ++ "' not found for " ++ Record.name r ++ "."),
     r).
Proof.
  intros Hn. unfold Record.remove_phone.
  now rewrite (remove_first_absent number _ Hn).
Qed.

Lemma remove_phone_absent_witness :
  ~ In "3333333333" (Record.phones (Record.mk "Bob" ["1111111111"] None))
  /\ Record.remove_phone (Record.mk "Bob" ["1111111111"] None) "3333333333" =
     (Ok "Phone number '3333333333' not found for Bob.",
      Record.mk "Bob" ["1111111111"] None).
Proof.
  assert (Hn : ~ In "3333333333"
                 (Record.phones (Record.mk "Bob" ["1111111111"] None))).
  { simpl. intros [H|[]]. discriminate H. }
  split; [exact Hn|].
  exact (remove_phone_absent (Record.mk "Bob" ["1111111111"] None)
           "3333333333" Hn).
Defined.

Lemma edit_first_split (old_number new_number : string) :
  forall l1 l2,
    ~ In old_number l1 ->
    Record.edit_first (PyStr old_number) new_number (l1 ++ old_number :: l2) =
    Some (_ <- Phone.init new_number ;; Ok (l1 ++ new_number :: l2)%list).
Proof.
  induction l1 as [|p l1 IH]; simpl; intros l2 Hn.
  - now rewrite String.eqb_refl.
  - destruct (String.eqb_spec p old_number) as [->|Hne].
    + exfalso. apply Hn. now left.
    + rewrite IH by (intros H; apply Hn; now right).
      destruct (Phone.init new_number); reflexivity.
Qed.

(** X4: edit_phone with an accepted new number rewrites the first phone
    equal to the old number, in place, and no other phone; with a rejected
    new number it returns the validation message and changes nothing. *)
Theorem edit_phone_first_occurrence (r : Record.t) (old_number new_number : string)
  (l1 l2 : list string) :
  Record.phones r = (l1 ++ old_number :: l2)%list ->
  ~ In old_number l1 ->
  Record.edit_phone r (PyStr old_number) new_number =
    if Phone.validate new_number
    then (Ok ("Phone number '" ++ old_number ++ "' edited to '" ++ new_number
              ++ "' for " ++ Record.name r ++ "."),
          Record.mk (Record.name r) (l1 ++ new_number :: l2) (Record.birthday r))
    else (Ok "Phone number must be exactly 10 digits.", r).
Proof.
  intros Hp Hn. unfold Record.edit_phone.
  rewrite Hp, (edit_first_split old_number new_number l1 l2 Hn).
  destruct (Phone.validate new_number) eqn:Hv.
  - now rewrite (phone_init_ok _ Hv).
  - now rewrite (phone_init_raise _ Hv).
Qed.

Lemma edit_phone_first_occurrence_witness :
  let r := Record.mk "Bob" ["1111111111"; "2222222222"; "2222222222"] None in
  Record.phones r = (["1111111111"] ++ "2222222222" :: ["2222222222"])%list
  /\ ~ In "2222222222" ["1111111111"]
  /\ Record.edit_phone r (PyStr "2222222222") "3333333333" =
     (Ok "Phone number '2222222222' edited to '3333333333' for Bob.",
      Record.mk "Bob" ["1111111111"; "3333333333"; "2222222222"] None).
Proof.
  cbv zeta.
  assert (Hn : ~ In "2222222222" ["1111111111"]).
  { simpl. intros [H|[]]. discriminate H. }
  split; [reflexivity|]. split; [exact Hn|].
  exact (edit_phone_first_occurrence
           (Record.mk "Bob" ["1111111111"; "2222222222"; "2222222222"] None)
           "2222222222" "3333333333" ["1111111111"] ["2222222222"] eq_refl Hn).
Defined.

Lemma edit_first_length (old_number : pyval) (new_number : string) :
  forall ps ps',
    Record.edit_first old_number new_number ps = Some (Ok ps') ->
    List.length ps' = List.length ps.
Proof.
  induction ps as [|p ps IH]; simpl; intros ps' H; [discriminate|].
  destruct (str_eq_pyval p old_number).
  - destruct (Phone.init new_number); simpl in H; [|discriminate].
    now injection H as <-.
  - destruct (Record.edit_first old_number new_number ps) as [[l|e]|];
      try discriminate.
    injection H as <-. simpl. f_equal. now apply IH.
Qed.

Lemma edit_first_absent (old_number : pyval) (new_number : string) :
  forall ps,
    (forall p, In p ps -> str_eq_pyval p old_number = false) ->
    Record.edit_first old_number new_number ps = None.
Proof.
  induction ps as [|p ps IH]; simpl; intros H; [reflexivity|].
  rewrite (H p (or_introl eq_refl)), IH; [reflexivity|].
  intros q Hq. apply H. now right.
Qed.

(** X5: edit_phone never changes how many phones a record has, nor its
    name, nor its birthday; and when no phone is equal to the old value
    (in particular when the old value is None) the record is unchanged. *)
Theorem edit_phone_keeps_shape (r : Record.t) (old_number : pyval)
  (new_number : string) :
  let r' := snd (Record.edit_phone r old_number new_number) in
  List.length (Record.phones r') = List.length (Record.phones r)
  /\ Record.name r' = Record.name r
  /\ Record.birthday r' = Record.birthday r
  /\ ((forall p, In p (Record.phones r) -> str_eq_pyval p old_number = false) ->
      r' = r)
  /\ Record.edit_phone r PyNone new_number =
     (Ok ("Phone number 'None' not found for " ++ Record.name r ++ "."), r).
Proof.
  cbv zeta. unfold Record.edit_phone.
  assert (Hnone : Record.edit_first PyNone new_number (Record.phones r) = None).
  { apply edit_first_absent. reflexivity. }
  split; [|split; [|split; [|split]]].
  - destruct (Record.edit_first old_number new_number (Record.phones r))
      as [[ps|e]|] eqn:He; simpl; trivial.
    + eapply edit_first_length. eassumption.
    + destruct e; reflexivity.
  - destruct (Record.edit_first old_number new_number (Record.phones r))
      as [[ps|e]|]; simpl; trivial. destruct e; reflexivity.
  - destruct (Record.edit_first old_number new_number (Record.phones r))
      as [[ps|e]|]; simpl; trivial. destruct e; reflexivity.
  - intros H. now rewrite (edit_first_absent old_number new_number _ H).
  - now rewrite Hnone.
Qed.

(** X6: find_phone returns the number itself when the record holds it and
    nothing when it does not. *)
Theorem find_phone_membership (r : Record.t) (number : string) :
  (In number (Record.phones r) -> Record.find_phone r number = Some number)
  /\ (~ In number (Record.phones r) -> Record.find_phone r number = None).
Proof.
  unfold Record.find_phone. induction (Record.phones r) as [|p ps [IH1 IH2]].
  - split; [intros [] | reflexivity].
  - simpl. destruct (String.eqb_spec p number) as [->|Hne]; split.
    + reflexivity.
    + intros Hn. exfalso. apply Hn. now left.
    + intros [H|H]; [congruence | now apply IH1].
    + intros Hn. apply IH2. intros H. apply Hn. now right.
Qed.

(** ** Address book: insertion, lookup, deletion *)

Lemma dict_get_set_same (key : string) (r : Record.t) :
  forall book, dict_get (dict_set key r book) key = Some r.
Proof.
  induction book as [|[k v] book IH]; simpl.
  - now rewrite String.eqb_refl.
  - destruct (String.eqb k key) eqn:Hk; simpl; now rewrite Hk.
Qed.

Lemma dict_get_set_other (key k' : string) (r : Record.t) :
  k' <> key ->
  forall book, dict_get (dict_set key r book) k' = dict_get book k'.
Proof.
  intros Hne. induction book as [|[k v] book IH]; simpl.
  - destruct (String.eqb_spec key k'); [congruence | reflexivity].
  - destruct (String.eqb_spec k key) as [->|Hk]; simpl.
    + destruct (String.eqb_spec key k'); [congruence | reflexivity].
    + destruct (String.eqb k k'); [reflexivity | exact IH].
Qed.

Lemma dict_get_in (key : string) (r : Record.t) :
  forall book, dict_get book key = Some r -> In (key, r) book.
Proof.
  induction book as [|[k v] book IH]; simpl; intros H; [discriminate|].
  destruct (String.eqb_spec k key) as [->|Hne].
  - injection H as ->. now left.
  - right. now apply IH.
Qed.

Lemma dict_get_none_keys (key : string) :
  forall book, dict_get book key = None <-> ~ In key (map fst book).
Proof.
  induction book as [|[k v] book IH]; simpl.
  - tauto.
  - destruct (String.eqb_spec k key) as [->|Hne].
    + split; [discriminate | intros H; exfalso; apply H; now left].
    + rewrite IH. tauto.
Qed.

(** X7: after add_record, find under the record's name returns that very
    record, whatever was stored under the name before, and find under any
    other name returns what it returned before. *)
Theorem add_record_then_find (record : Record.t) (book : AddressBook) :
  find (add_record record book) (Record.name record) = Some record
  /\ (forall name, name <> Record.name record ->
                   find (add_record record book) name = find book name)
  /\ (forall old, find book (Record.name record) = Some old ->
                  map fst (add_record record book) = map fst book)
  /\ (find book (Record.name record) = None ->
      add_record record book = (book ++ [(Record.name record, record)])%list).
Proof.
  unfold find, add_record. split; [|split; [|split]].
  - apply dict_get_set_same.
  - intros name Hne. now apply dict_get_set_other.
  - intros old Hold.
    now destruct (dict_set_present (Record.name record) record old book Hold)
      as (_ & Hk & _).
  - apply dict_set_absent.
Qed.

Lemma dict_del_get_same (key : string) :
  forall book, NoDup (map fst book) -> dict_get (dict_del key book) key = None.
Proof.
  induction book as [|[k v] book IH]; simpl; intros Hnd; [reflexivity|].
  inversion Hnd as [|? ? Hnotin Hnd']; subst.
  destruct (String.eqb_spec k key) as [->|Hne].
  - now apply dict_get_none_keys.
  - simpl. destruct (String.eqb_spec k key); [congruence | now apply IH].
Qed.

Lemma dict_del_get_other (key k' : string) :
  k' <> key ->
  forall book, dict_get (dict_del key book) k' = dict_get book k'.
Proof.
  intros Hne. induction book as [|[k v] book IH]; simpl; [reflexivity|].
  destruct (String.eqb_spec k key) as [->|Hk]; simpl.
  - destruct (String.eqb_spec key k'); [congruence | reflexivity].
  - destruct (String.eqb k k'); [reflexivity | exact IH].
Qed.

Lemma dict_del_absent (key : string) :
  forall book, dict_get book key = None -> dict_del key book = book.
Proof.
  induction book as [|[k v] book IH]; simpl; intros H; [reflexivity|].
  destruct (String.eqb k key); [discriminate|]. now rewrite IH.
Qed.

(** X8: in a book with distinct keys, delete leaves no record under the
    name, keeps what is stored under every other name, and its text tells
    whether a record was there; deleting a name that is absent changes
    nothing. *)
Theorem delete_then_find (book : AddressBook) (name : string) :
  NoDup (map fst book) ->
  find (snd (delete book name)) name = None
  /\ (forall other, other <> name ->
                    find (snd (delete book name)) other = find book other)
  /\ (fst (delete book name) =
      match find book name with
      | Some _ => "Record for " ++ name ++ " removed from the address book."
      | None => "No record found for " ++ name ++ "."
      end)
  /\ (find book name = None -> snd (delete book name) = book).
Proof.
  intros Hnd. unfold delete, find.
  destruct (dict_get book name) as [r|] eqn:Hg; simpl.
  - repeat split.
    + now apply dict_del_get_same.
    + intros other Hne. now apply dict_del_get_other.
    + discriminate.
  - repeat split; trivial.
Qed.

Lemma delete_then_find_witness :
  let book := [("Ann", Record.init "Ann"); ("Bob", Record.init "Bob")] in
  NoDup (map fst book)
  /\ find (snd (delete book "Ann")) "Ann" = None
  /\ (forall other, other <> "Ann" ->
                    find (snd (delete book "Ann")) other = find book other)
  /\ (fst (delete book "Ann") =
      match find book "Ann" with
      | Some _ => "Record for " ++ "Ann" ++ " removed from the address book."
      | None => "No record found for " ++ "Ann" ++ "."
      end)
  /\ (find book "Ann" = None -> snd (delete book "Ann") = book).
Proof.
  cbv zeta.
  assert (Hnd : NoDup (map fst [("Ann", Record.init "Ann"); ("Bob", Record.init "Bob")])).
  { simpl. constructor.
    - intros [H|[]]. discriminate H.
    - constructor; [intros [] | constructor]. }
  split; [exact Hnd|].
  exact (delete_then_find
           [("Ann", Record.init "Ann"); ("Bob", Record.init "Bob")] "Ann" Hnd).
Defined.

(** ** The book invariant *)

Lemma dict_set_keys (key : string) (r : Record.t) :
  forall book,
    map fst (dict_set key r book) =
    match dict_get book key with
    | Some _ => map fst book
    | None => (map fst book ++ [key])%list
    end.
Proof.
  induction book as [|[k v] book IH]; simpl; [reflexivity|].
  destruct (String.eqb k key); simpl; [reflexivity|].
  rewrite IH. now destruct (dict_get book key).
Qed.

Lemma dict_set_forall (P : string * Record.t -> Prop) (key : string)
  (r : Record.t) :
  (forall k, P (k, r) \/ k <> key) ->
  P (key, r) ->
  forall book, Forall P book -> Forall P (dict_set key r book).
Proof.
  intros Hk Hp. induction book as [|[k v] book IH]; simpl; intros Hall.
  - constructor; [exact Hp | constructor].
  - inversion Hall as [|? ? Hv Hb]; subst.
    destruct (String.eqb_spec k key) as [->|Hne].
    + constructor; assumption.
    + constructor; [assumption | now apply IH].
Qed.

Lemma book_ok_set (key : string) (r : Record.t) (book : AddressBook) :
  Record.name r = key -> phones_valid r ->
  book_ok book -> book_ok (dict_set key r book).
Proof.
  intros Hname Hval [Hnd Hall]. split.
  - rewrite dict_set_keys. destruct (dict_get book key) eqn:Hg; [exact Hnd|].
    apply dict_get_none_keys in Hg.
    apply NoDup_app; [exact Hnd | repeat constructor; intros [] | ].
    intros x Hx [<-|[]]. contradiction.
  - apply dict_set_forall; trivial.
    + intros k. destruct (string_dec k key) as [->|Hne]; [left | now right].
      now split.
    + now split.
Qed.

Lemma book_ok_get (book : AddressBook) (key : string) (r : Record.t) :
  book_ok book -> dict_get book key = Some r ->
  Record.name r = key /\ phones_valid r.
Proof.
  intros [_ Hall] Hg. apply dict_get_in in Hg.
  rewrite Forall_forall in Hall. exact (Hall _ Hg).
Qed.

Lemma book_ok_del (key : string) :
  forall book, book_ok book -> book_ok (dict_del key book).
Proof.
  induction book as [|[k v] book IH]; simpl; intros [Hnd Hall]; [now split|].
  inversion Hnd as [|? ? Hnotin Hnd']; subst.
  inversion Hall as [|? ? Hv Hb]; subst.
  destruct (String.eqb_spec k key) as [->|Hne]; [now split|].
  destruct (IH (conj Hnd' Hb)) as [Hnd2 Hall2]. split.
  - simpl. constructor; [|exact Hnd2].
    intros Hin. apply Hnotin. clear -Hin.
    induction book as [|[k0 v0] book IH]; simpl in *; [contradiction|].
    destruct (String.eqb k0 key); [now right|].
    destruct Hin as [H|H]; [now left | right; now apply IH].
  - constructor; assumption.
Qed.

Lemma add_phone_keeps (r : Record.t) (number : string) :
  phones_valid r ->
  phones_valid (snd (Record.add_phone r number))
  /\ Record.name (snd (Record.add_phone r number)) = Record.name r.
Proof.
  intros Hr. split.
  - exact (apply_op_valid r (OpAddPhone number) Hr).
  - destruct (add_phone_cases r number) as [[_ ->] | [_ ->]]; reflexivity.
Qed.

Lemma edit_phone_keeps (r : Record.t) (o : pyval) (n : string) :
  phones_valid r ->
  phones_valid (snd (Record.edit_phone r o n))
  /\ Record.name (snd (Record.edit_phone r o n)) = Record.name r.
Proof.
  intros Hr. split.
  - exact (apply_op_valid r (OpEditPhone o n) Hr).
  - unfold Record.edit_phone.
    destruct (Record.edit_first o n (Record.phones r)) as [[ps|e]|];
      simpl; trivial. destruct e; reflexivity.
Qed.

Lemma add_birthday_keeps (r : Record.t) (s : string) :
  phones_valid r ->
  phones_valid (snd (Record.add_birthday r s))
  /\ Record.name (snd (Record.add_birthday r s)) = Record.name r.
Proof.
  intros Hr. unfold Record.add_birthday.
  destruct (birthday_init_cases s) as [(d & _ & ->) | [_ ->]]; now split.
Qed.

Lemma run_command_ok (book : AddressBook) (c : command) :
  book_ok book -> book_ok (run_command book c).
Proof.
  intros Hok. destruct c as [args|args|args|name]; simpl.
  - unfold add_contact, input_error, add_contact_body.
    destruct (unpack2 (split_maxsplit1 args)) as [[name phone]|e].
    + unfold find. destruct (dict_get book name) as [record|] eqn:Hg.
      * destruct (book_ok_get book name record Hok Hg) as [Hn Hv].
        destruct (add_phone_keeps record phone Hv) as [Hv' Hn'].
        destruct (Record.add_phone record phone) as [res record'].
        simpl in *. destruct res as [s|[]]; simpl;
          apply book_ok_set; trivial; congruence.
      * destruct (add_phone_keeps (Record.init name) phone) as [Hv' Hn'];
          [constructor|].
        destruct (Record.add_phone (Record.init name) phone) as [res record'].
        simpl in *. destruct res as [s|[]]; simpl; trivial.
        destruct (str_in "Phone number must be exactly 10 digits." s);
          simpl; trivial.
        unfold add_record. apply book_ok_set; trivial.
    + destruct e; exact Hok.
  - unfold change_phone, input_error, change_phone_body.
    destruct (unpack2 (split_maxsplit1 args)) as [[name phone]|e].
    + unfold find. destruct (dict_get book name) as [record|] eqn:Hg.
      * destruct (book_ok_get book name record Hok Hg) as [Hn Hv].
        set (o := match Record.phones record with
                  | [] => PyNone | p :: _ => PyStr p end).
        destruct (edit_phone_keeps record o phone Hv) as [Hv' Hn'].
        destruct (Record.edit_phone record o phone) as [res record'].
        simpl in *. destruct res as [s|[]]; simpl;
          apply book_ok_set; trivial; congruence.
      * exact Hok.
    + destruct e; exact Hok.
  - unfold add_birthday, input_error, add_birthday_body.
    destruct (unpack2 (split_maxsplit1 args)) as [[name text]|e].
    + unfold find. destruct (dict_get book name) as [record|] eqn:Hg.
      * destruct (book_ok_get book name record Hok Hg) as [Hn Hv].
        destruct (add_birthday_keeps record text Hv) as [Hv' Hn'].
        destruct (Record.add_birthday record text) as [res record'].
        simpl in *. destruct res as [s|[]]; simpl;
          apply book_ok_set; trivial; congruence.
      * exact Hok.
    + destruct e; exact Hok.
  - unfold delete. destruct (dict_get book name); simpl; trivial.
    now apply book_ok_del.
Qed.

(** X9: from the empty book, after any sequence of add_contact,
    change_phone, add_birthday and delete calls with any arguments, the
    keys of the book are distinct, every record is stored under its own
    name, and every phone of every record passes [Phone.validate]. *)
Theorem book_invariant (commands : list command) :
  let book := fold_left run_command commands [] in
  NoDup (map fst book)
  /\ (forall name record,
         find book name = Some record ->
         Record.name record = name
         /\ Forall (fun p => Phone.validate p = true) (Record.phones record)).
Proof.
  cbv zeta.
  assert (Hok : book_ok (fold_left run_command commands [])).
  { assert (Hgen : forall book, book_ok book ->
                                book_ok (fold_left run_command commands book)).
    { induction commands as [|c cs IH]; simpl; intros book Hb; [exact Hb|].
      apply IH. now apply run_command_ok. }
    apply Hgen. split; constructor. }
  split; [exact (proj1 Hok)|].
  intros name record Hf. exact (book_ok_get _ name record Hok Hf).
Qed.

(** ** Order of dates and ordinals *)

Lemma days_before_year_succ (y : Z) :
  days_before_year (y + 1) =
  days_before_year y + 365 + (if is_leap y then 1 else 0).
Proof.
  unfold days_before_year, is_leap. cbv zeta.
  replace (y + 1 - 1) with y by lia.
  destruct (Z.eqb_spec (y mod 4) 0) as [H4|H4];
    destruct (Z.eqb_spec (y mod 100) 0) as [H100|H100];
    destruct (Z.eqb_spec (y mod 400) 0) as [H400|H400];
    cbn [andb orb negb]; Z.div_mod_to_equations; lia.
Qed.

Lemma days_before_year_mono (a b : Z) :
  a <= b -> days_before_year a <= days_before_year b.
Proof.
  intros Hab. unfold days_before_year. cbv zeta.
  Z.div_mod_to_equations. lia.
Qed.

Lemma month_cases (m : Z) :
  1 <= m <= 12 ->
  m = 1 \/ m = 2 \/ m = 3 \/ m = 4 \/ m = 5 \/ m = 6 \/ m = 7
  \/ m = 8 \/ m = 9 \/ m = 10 \/ m = 11 \/ m = 12.
Proof. lia. Qed.

Lemma days_before_month_mono (y m1 m2 d : Z) :
  1 <= m1 -> m1 < m2 -> m2 <= 12 -> d <= days_in_month y m1 ->
  days_before_month y m1 + d <= days_before_month y m2.
Proof.
  intros H1 H12 H2.
  destruct (month_cases m1 ltac:(lia))
    as [->|[->|[->|[->|[->|[->|[->|[->|[->|[->|[->| ->]]]]]]]]]]];
    destruct (month_cases m2 ltac:(lia))
      as [->|[->|[->|[->|[->|[->|[->|[->|[->|[->|[->| ->]]]]]]]]]]];
    try lia;
    unfold days_before_month, days_in_month; destruct (is_leap y);
    cbv [DAYS_BEFORE_MONTH DAYS_IN_MONTH];
    cbn [Z.ltb Z.eqb Z.compare Pos.compare Pos.compare_cont Pos.eqb andb];
    lia.
Qed.

Lemma date_lt_toordinal (a b : date) :
  valid_date a = true -> valid_date b = true ->
  (date_lt a b = true <-> toordinal a < toordinal b).
Proof.
  intros Ha Hb.
  destruct (valid_date_bounds a Ha) as (Hya & Hma & Hda & _).
  destruct (valid_date_bounds b Hb) as (Hyb & Hmb & Hdb & _).
  pose proof (days_in_year_bounds (year a) (month a) (day a) Hma Hda) as Hia.
  pose proof (days_in_year_bounds (year b) (month b) (day b) Hmb Hdb) as Hib.
  unfold date_lt, toordinal, ymd2ord.
  destruct (Z.ltb_spec (year a) (year b)) as [Hy|Hy]; cbn [orb].
  - split; [intros _ | reflexivity].
    pose proof (days_before_year_succ (year a)).
    pose proof (days_before_year_mono (year a + 1) (year b) ltac:(lia)). lia.
  - destruct (Z.eqb_spec (year a) (year b)) as [Hye|Hye]; cbn [andb].
    + rewrite Hye in *.
      destruct (Z.ltb_spec (month a) (month b)) as [Hm|Hm]; cbn [orb].
      * split; [intros _ | reflexivity].
        pose proof (days_before_month_mono (year b) (month a) (month b) (day a)
                      ltac:(lia) Hm ltac:(lia) ltac:(lia)). lia.
      * destruct (Z.eqb_spec (month a) (month b)) as [Hme|Hme]; cbn [andb].
        -- rewrite Hme. rewrite Z.ltb_lt. lia.
        -- split; [discriminate|]. intros Hlt. exfalso.
           pose proof (days_before_month_mono (year b) (month b) (month a) (day b)
                         ltac:(lia) ltac:(lia) ltac:(lia) ltac:(lia)). lia.
    + split; [discriminate|]. intros Hlt. exfalso.
      pose proof (days_before_year_succ (year b)).
      pose proof (days_before_year_mono (year b + 1) (year a) ltac:(lia)). lia.
Qed.

Lemma next_year_ordinal (y m d : Z) :
  1 <= m <= 12 ->
  ymd2ord (y + 1) m d <= ymd2ord y m d + 366.
Proof.
  intros Hm. unfold ymd2ord. rewrite days_before_year_succ.
  unfold days_before_month.
  destruct (2 <? m); destruct (is_leap y); destruct (is_leap (y + 1));
    cbn [andb]; lia.
Qed.

(** ** The projected birthday *)

(** X10: a projection that succeeds keeps the month and the day of the
    birthday, lies in the reference year or the one after it, is never
    before the reference date and is at most 365 days after it. *)
Theorem project_is_ahead (today b p : date) :
  valid_date today = true ->
  project today b = Ok p ->
  month p = month b /\ day p = day b
  /\ (year p = year today \/ year p = year today + 1)
  /\ 0 <= days_between p today <= 365.
Proof.
  intros Ht Hp. pose proof (project_valid _ _ _ Hp) as Hv.
  destruct (valid_date_bounds today Ht) as (Hyt & Hmt & Hdt & _).
  pose proof (days_in_year_bounds _ _ _ Hmt Hdt) as Hit.
  unfold project, replace_year in Hp.
  destruct (date_new (year today) (month b) (day b)) as [p0|e] eqn:H0;
    cbn [bind] in Hp; [|discriminate].
  destruct (date_new_valid _ _ _ _ H0) as [Hv0 ->].
  destruct (valid_date_bounds _ Hv0) as (_ & Hm0 & Hd0 & _).
  cbn [year month day] in *.
  pose proof (days_in_year_bounds _ _ _ Hm0 Hd0) as Hi0.
  destruct (date_lt (mkdate (year today) (month b) (day b)) today) eqn:Hlt.
  - destruct (date_new_valid _ _ _ _ Hp) as [_ ->]. cbn [year month day].
    repeat split; auto.
    + apply (date_lt_toordinal _ _ Hv0 Ht) in Hlt.
      destruct (valid_date_bounds _ Hv) as (_ & Hm1 & Hd1 & _).
      cbn [year month day] in *.
      pose proof (days_in_year_bounds _ _ _ Hm1 Hd1) as Hi1.
      pose proof (days_before_year_succ (year today)).
      unfold days_between, toordinal, ymd2ord in *. cbn [year month day] in *.
      destruct (is_leap (year today)); destruct (is_leap (year today + 1)); lia.
    + apply (date_lt_toordinal _ _ Hv0 Ht) in Hlt.
      pose proof (next_year_ordinal (year today) (month b) (day b) Hm0).
      unfold days_between, toordinal in *. cbn [year month day] in *. lia.
  - injection Hp as <-. cbn [year month day].
    repeat split; auto.
    + assert (Hn : ~ toordinal (mkdate (year today) (month b) (day b))
                     < toordinal today).
      { intros H. apply (date_lt_toordinal _ _ Hv0 Ht) in H. congruence. }
      unfold days_between. lia.
    + unfold days_between, toordinal, ymd2ord. cbn [year month day].
      destruct (is_leap (year today)); lia.
Qed.

Lemma project_is_ahead_witness :
  valid_date (mkdate 2024 6 10) = true
  /\ project (mkdate 2024 6 10) (mkdate 1990 6 9) = Ok (mkdate 2025 6 9)
  /\ month (mkdate 2025 6 9) = month (mkdate 1990 6 9)
  /\ day (mkdate 2025 6 9) = day (mkdate 1990 6 9)
  /\ (year (mkdate 2025 6 9) = year (mkdate 2024 6 10)
      \/ year (mkdate 2025 6 9) = year (mkdate 2024 6 10) + 1)
  /\ 0 <= days_between (mkdate 2025 6 9) (mkdate 2024 6 10) <= 365.
Proof.
  split; [reflexivity|]. split; [reflexivity|].
  exact (project_is_ahead (mkdate 2024 6 10) (mkdate 1990 6 9)
           (mkdate 2025 6 9) eq_refl eq_refl).
Defined.

(** ** The weekend shift *)

(** X11: on a date of the calendar adjust_for_weekend never fails; the
    date it returns is a Monday to Friday, and it is the date given or one
    or two days after it. *)
Theorem adjust_for_weekend_weekday (birthday : date) :
  valid_date birthday = true ->
  exists shifted,
    adjust_for_weekend birthday = Ok shifted
    /\ 0 <= weekday shifted <= 4
    /\ 0 <= days_between shifted birthday <= 2
    /\ (weekday birthday <= 4 -> shifted = birthday).
Proof.
  intros Hv.
  destruct (adjust_for_weekend_ok birthday Hv) as (c & Hc & Hord).
  exists c. split; [exact Hc|].
  assert (Hwd : 0 <= weekday birthday < 7)
    by (unfold weekday; apply Z.mod_pos_bound; lia).
  unfold weekend_shift in Hord. unfold days_between.
  unfold adjust_for_weekend in Hc.
  destruct (Z.eqb_spec (weekday birthday) 5) as [H5|H5].
  - repeat split; try lia;
      unfold weekday in *; rewrite Hord; Z.div_mod_to_equations; lia.
  - destruct (Z.eqb_spec (weekday birthday) 6) as [H6|H6].
    + repeat split; try lia;
        unfold weekday in *; rewrite Hord; Z.div_mod_to_equations; lia.
    + injection Hc as <-. repeat split; lia.
Qed.

Lemma adjust_for_weekend_weekday_witness :
  valid_date (mkdate 2024 6 16) = true
  /\ exists shifted,
      adjust_for_weekend (mkdate 2024 6 16) = Ok shifted
      /\ 0 <= weekday shifted <= 4
      /\ 0 <= days_between shifted (mkdate 2024 6 16) <= 2
      /\ (weekday (mkdate 2024 6 16) <= 4 -> shifted = mkdate 2024 6 16).
Proof.
  split; [reflexivity|].
  exact (adjust_for_weekend_weekday (mkdate 2024 6 16) eq_refl).
Defined.

(** ** What get_upcoming_birthdays reports *)

Lemma project_raises_value_error (today b : date) (e : exn) :
  project today b = Raise e -> exists msg, e = ValueError msg.
Proof.
  assert (Hnew : forall y m d e', date_new y m d = Raise e' ->
                                  exists msg, e' = ValueError msg).
  { intros y m d e'. unfold date_new, check_date_fields.
    repeat match goal with
           | |- context [if ?c then _ else _] => destruct c
           end; simpl; intros [= <-]; eauto. }
  unfold project, replace_year.
  destruct (date_new (year today) (month b) (day b)) as [p0|e0] eqn:H0;
    cbn [bind].
  - destruct (date_lt p0 today); [apply Hnew | discriminate].
  - intros [= <-]. eapply Hnew. eassumption.
Qed.

Lemma upcoming_loop_sound (today : date) (days : Z) :
  forall records acc entries,
    upcoming_loop today days records acc = Ok entries ->
    (List.length entries <= List.length acc + List.length records)%nat
    /\ forall e, In e entries ->
         In e acc
         \/ exists r b p c,
             In r records /\ Record.birthday r = Some b
             /\ project today b = Ok p
             /\ 0 <= days_between p today <= days
             /\ adjust_for_weekend p = Ok c
             /\ e = mkentry (Record.name r) (date_to_string c).
Proof.
  induction records as [|record records IH]; intros acc entries H.
  - simpl in H. injection H as <-. split; [simpl; lia | auto].
  - cbn [upcoming_loop] in H.
    destruct (Record.birthday record) as [b0|] eqn:Hb0.
    + destruct (project today b0) as [p0|e0] eqn:Hp0; cbn [bind] in H;
        [|discriminate].
      destruct (in_window today days p0) eqn:Hw.
      * destruct (adjust_for_weekend p0) as [c0|e0] eqn:Hc0; cbn [bind] in H;
          [|discriminate].
        destruct (IH _ _ H) as [Hlen Hin]. split.
        -- rewrite length_app in Hlen. simpl in *. lia.
        -- intros e He. destruct (Hin e He) as [Hacc | (r & b & p & c & Hr & Hrest)].
           ++ apply in_app_or in Hacc as [Hacc | [<- | []]]; [now left|].
              right. exists record, b0, p0, c0.
              unfold in_window in Hw. apply andb_true_iff in Hw as [Hw1 Hw2].
              apply Z.leb_le in Hw1, Hw2.
              repeat split; auto. now left.
           ++ right. exists r, b, p, c. split; [now right | exact Hrest].
      * destruct (IH _ _ H) as [Hlen Hin]. split; [simpl; lia|].
        intros e He. destruct (Hin e He) as [Hacc | (r & b & p & c & Hr & Hrest)];
          [now left|].
        right. exists r, b, p, c. split; [now right | exact Hrest].
    + destruct (IH _ _ H) as [Hlen Hin]. split; [simpl; lia|].
      intros e He. destruct (Hin e He) as [Hacc | (r & b & p & c & Hr & Hrest)];
        [now left|].
      right. exists r, b, p, c. split; [now right | exact Hrest].
Qed.

(** X12: every entry that get_upcoming_birthdays returns comes from a
    record of the book with a birthday whose projection is 0 to [days]
    days after the reference date, and carries that record's name and the
    formatted weekend-shifted date; records without a birthday or outside
    the window add nothing, so there are at most as many entries as
    records. *)
Theorem upcoming_birthdays_sound (today : date) (days : Z) (book : AddressBook)
  (entries : list entry) :
  get_upcoming_birthdays today days book = Ok entries ->
  (List.length entries <= List.length book)%nat
  /\ forall e, In e entries ->
       exists r b p c,
         In r (values book) /\ Record.birthday r = Some b
         /\ project today b = Ok p
         /\ 0 <= days_between p today <= days
         /\ adjust_for_weekend p = Ok c
         /\ e = mkentry (Record.name r) (date_to_string c).
Proof.
  intros H. destruct (upcoming_loop_sound today days _ _ _ H) as [Hlen Hin].
  split.
  - unfold values in Hlen. rewrite length_map in Hlen. exact Hlen.
  - intros e He. destruct (Hin e He) as [[] | Hex]. exact Hex.
Qed.

Lemma upcoming_birthdays_sound_witness :
  let book := [("Ann", Record.mk "Ann" [] (Some (mkdate 1990 6 15)));
               ("Bob", Record.mk "Bob" [] None);
               ("Eve", Record.mk "Eve" [] (Some (mkdate 1985 12 1)))] in
  let entries := [mkentry "Ann" "17.06.2024"] in
  get_upcoming_birthdays (mkdate 2024 6 10) 7 book = Ok entries
  /\ (List.length entries <= List.length book)%nat
  /\ forall e, In e entries ->
       exists r b p c,
         In r (values book) /\ Record.birthday r = Some b
         /\ project (mkdate 2024 6 10) b = Ok p
         /\ 0 <= days_between p (mkdate 2024 6 10) <= 7
         /\ adjust_for_weekend p = Ok c
         /\ e = mkentry (Record.name r) (date_to_string c).
Proof.
  cbv zeta. split; [reflexivity|].
  exact (upcoming_birthdays_sound (mkdate 2024 6 10) 7
           [("Ann", Record.mk "Ann" [] (Some (mkdate 1990 6 15)));
            ("Bob", Record.mk "Bob" [] None);
            ("Eve", Record.mk "Eve" [] (Some (mkdate 1985 12 1)))]
           [mkentry "Ann" "17.06.2024"] eq_refl).
Defined.

Lemma upcoming_loop_raises_value_error (today : date) (days : Z) :
  forall records acc e,
    upcoming_loop today days records acc = Raise e ->
    exists msg, e = ValueError msg.
Proof.
  induction records as [|record records IH]; intros acc e H;
    [discriminate|].
  cbn [upcoming_loop] in H.
  destruct (Record.birthday record) as [b0|]; [|eapply IH; eassumption].
  destruct (project today b0) as [p0|e0] eqn:Hp0; cbn [bind] in H.
  - destruct (in_window today days p0); [|eapply IH; eassumption].
    destruct (adjust_for_weekend_ok p0 (project_valid _ _ _ Hp0))
      as (c0 & Hc0 & _).
    rewrite Hc0 in H. cbn [bind] in H. eapply IH; eassumption.
  - injection H as <-. eapply project_raises_value_error; eassumption.
Qed.

(** ** No error leaves a handler *)

Lemma input_error_text
  (func : string -> AddressBook -> result string * AddressBook)
  (args : string) (book : AddressBook) :
  (forall msg, fst (func args book) <> Raise (OverflowError msg)) ->
  returns_text (input_error func args book).
Proof.
  unfold input_error, returns_text. intros H.
  destruct (func args book) as [[s|e] b]; simpl in H.
  - eauto.
  - destruct e; eauto. exfalso. eapply H. reflexivity.
Qed.

Lemma unpack2_no_overflow (parts : list string) (msg : string) :
  unpack2 parts <> Raise (OverflowError msg).
Proof. destruct parts as [|a [|b [|c l]]]; discriminate. Qed.

Lemma add_phone_text (r : Record.t) (number : string) :
  exists text r', Record.add_phone r number = (Ok text, r').
Proof.
  destruct (add_phone_cases r number) as [[_ ->] | [_ ->]]; eauto.
Qed.

Lemma edit_first_raises_value_error (o : pyval) (n : string) :
  forall ps e, Record.edit_first o n ps = Some (Raise e) ->
               exists msg, e = ValueError msg.
Proof.
  induction ps as [|p ps IH]; simpl; intros e H; [discriminate|].
  destruct (str_eq_pyval p o).
  - unfold Phone.init in H. destruct (Phone.validate n); simpl in H;
      [discriminate|]. injection H as <-. eauto.
  - destruct (Record.edit_first o n ps) as [[l|e0]|]; try discriminate.
    injection H as <-. eapply IH. reflexivity.
Qed.

Lemma edit_phone_text (r : Record.t) (o : pyval) (n : string) :
  exists text r', Record.edit_phone r o n = (Ok text, r').
Proof.
  unfold Record.edit_phone.
  destruct (Record.edit_first o n (Record.phones r)) as [[ps|e]|] eqn:He; eauto.
  destruct (edit_first_raises_value_error o n _ e He) as [msg ->]. eauto.
Qed.

Lemma add_birthday_text (r : Record.t) (s : string) :
  exists text r', Record.add_birthday r s = (Ok text, r').
Proof.
  unfold Record.add_birthday.
  destruct (birthday_init_cases s) as [(d & _ & ->) | [_ ->]]; eauto.
Qed.

Lemma add_contact_returns (args : string) (book : AddressBook) :
  returns_text (add_contact args book).
Proof.
  apply input_error_text. intros msg. unfold add_contact_body.
  destruct (unpack2 (split_maxsplit1 args)) as [[name phone]|e] eqn:Hu.
  - destruct (find book name) as [record|].
    + destruct (add_phone_text record phone) as (t & r' & ->). discriminate.
    + destruct (add_phone_text (Record.init name) phone) as (t & r' & ->).
      destruct (str_in "Phone number must be exactly 10 digits." t);
        discriminate.
  - simpl. intros [= ->]. exact (unpack2_no_overflow _ _ Hu).
Qed.

Lemma change_phone_returns (args : string) (book : AddressBook) :
  returns_text (change_phone args book).
Proof.
  apply input_error_text. intros msg. unfold change_phone_body.
  destruct (unpack2 (split_maxsplit1 args)) as [[name phone]|e] eqn:Hu.
  - destruct (find book name) as [record|]; [|discriminate].
    match goal with
    | |- context [Record.edit_phone ?r ?o ?n] =>
        destruct (edit_phone_text r o n) as (t & r' & ->)
    end. discriminate.
  - simpl. intros [= ->]. exact (unpack2_no_overflow _ _ Hu).
Qed.

Lemma add_birthday_returns (args : string) (book : AddressBook) :
  returns_text (add_birthday args book).
Proof.
  apply input_error_text. intros msg. unfold add_birthday_body.
  destruct (unpack2 (split_maxsplit1 args)) as [[name text]|e] eqn:Hu.
  - destruct (find book name) as [record|]; [|discriminate].
    destruct (add_birthday_text record text) as (t & r' & ->). discriminate.
  - simpl. intros [= ->]. exact (unpack2_no_overflow _ _ Hu).
Qed.

Lemma show_phone_returns (args : string) (book : AddressBook) :
  returns_text (show_phone args book).
Proof.
  apply input_error_text. intros msg. unfold show_phone_body.
  destruct (find book (strip args)); discriminate.
Qed.

Lemma show_birthday_returns (args : string) (book : AddressBook) :
  returns_text (show_birthday args book).
Proof.
  apply input_error_text. intros msg. unfold show_birthday_body.
  destruct (find book (strip args)); discriminate.
Qed.

Lemma birthdays_returns (today : date) (args : string) (book : AddressBook) :
  exists text, birthdays today args book = (Ok text, book).
Proof.
  unfold birthdays, input_error, birthdays_body.
  destruct (if str_isdigit (strip args) then int_of_digits (strip args) else Ok 7)
    as [days|e] eqn:Hd.
  - destruct (get_upcoming_birthdays today days book) as [[|en l]|e] eqn:Hu;
      eauto.
    destruct (upcoming_loop_raises_value_error today days _ _ _ Hu) as [m ->].
    eauto.
  - assert (He : exists m, e = ValueError m).
    { destruct (str_isdigit (strip args)); [|discriminate].
      unfold int_of_digits in Hd.
      destruct (negb (str_forall is_digit (strip args)));
        [injection Hd as <-; eauto|].
      destruct (Nat.ltb 4300 (String.length (strip args)));
        [injection Hd as <-; eauto | discriminate]. }
    destruct He as [m ->]. eauto.
Qed.

(** X13: no error leaves a command handler or the command loop: whatever
    the argument string, the book and the date, add_contact, change_phone,
    add_birthday, show_phone, show_birthday and birthdays return a text,
    and so the loop of main prints a text for every line and never ends on
    an error. *)
Theorem no_error_escapes :
  (forall (today : date) (args : string) (book : AddressBook),
      returns_text (add_contact args book)
      /\ returns_text (change_phone args book)
      /\ returns_text (add_birthday args book)
      /\ returns_text (show_phone args book)
      /\ returns_text (show_birthday args book)
      /\ returns_text (birthdays today args book))
  /\ (forall (inputs : list (date * string)) (book : AddressBook),
         exists texts st, main inputs book = Ok (texts, st)).
Proof.
  split.
  - intros today args book.
    repeat split;
      [apply add_contact_returns | apply change_phone_returns
      | apply add_birthday_returns | apply show_phone_returns
      | apply show_birthday_returns |].
    destruct (birthdays_returns today args book) as [t Ht].
    exists t, book. exact Ht.
  - assert (Hstep : forall today line book,
               exists text book' stop,
                 main_step today line book = Ok (text, book', stop)).
    { intros today line book. unfold main_step.
      destruct (parse_input line) as [command args].
      repeat match goal with
             | |- context [if ?c then _ else _] => destruct c
             end; eauto;
        match goal with
        | |- context [add_contact ?a ?b] =>
            destruct (add_contact_returns a b) as (t & b' & ->)
        | |- context [change_phone ?a ?b] =>
            destruct (change_phone_returns a b) as (t & b' & ->)
        | |- context [show_phone ?a ?b] =>
            destruct (show_phone_returns a b) as (t & b' & ->)
        | |- context [add_birthday ?a ?b] =>
            destruct (add_birthday_returns a b) as (t & b' & ->)
        | |- context [show_birthday ?a ?b] =>
            destruct (show_birthday_returns a b) as (t & b' & ->)
        | |- context [birthdays ?d ?a ?b] =>
            destruct (birthdays_returns d a b) as (t & ->)
        end; eauto. }
    assert (Hloop : forall inputs book,
               exists texts st, main_loop inputs book = Ok (texts, st)).
    { induction inputs as [|[today line] inputs IH]; intros book; simpl;
        [eauto|].
      destruct (Hstep today line book) as (text & book' & stop & ->).
      destruct stop; [eauto|].
      destruct (IH book') as (texts & st & ->). eauto. }
    intros inputs book. unfold main.
    destruct (Hloop inputs book) as (texts & st & ->). eauto.
Qed.

(** ** A stored birthday read back from its text *)

Lemma digit_char_val (k : Z) :
  0 <= k <= 9 ->
  is_digit (digit_char k) = true /\ digit_val (digit_char k) = k.
Proof.
  intros Hk.
  assert (Hc : k = 0 \/ k = 1 \/ k = 2 \/ k = 3 \/ k = 4 \/ k = 5 \/ k = 6
               \/ k = 7 \/ k = 8 \/ k = 9) by lia.
  destruct Hc as [->|[->|[->|[->|[->|[->|[->|[->|[->| ->]]]]]]]]];
    split; reflexivity.
Qed.

Lemma mod10_range (n : Z) : 0 <= n mod 10 <= 9.
Proof. pose proof (Z.mod_pos_bound n 10 ltac:(lia)). lia. Qed.

Lemma digits2 (n : Z) : 0 <= n <= 99 -> 10 * (n / 10 mod 10) + n mod 10 = n.
Proof. intros H. Z.div_mod_to_equations. lia. Qed.
Lemma digits4 (n : Z) :
  0 <= n <= 9999 ->
  1000 * (n / 1000 mod 10) + 100 * (n / 100 mod 10)
  + 10 * (n / 10 mod 10) + n mod 10 = n.
Proof.
  intros H.
  assert (H1 : n / 100 = n / 10 / 10) by (rewrite Z.div_div by lia; reflexivity).
  assert (H2 : n / 1000 = n / 10 / 10 / 10) by (rewrite !Z.div_div by lia; reflexivity).
  rewrite H1, H2.
  generalize (Z.div_mod n 10 ltac:(lia)) (Z.mod_pos_bound n 10 ltac:(lia)).
  generalize (n mod 10). set (a := n / 10). intros r0 E0 B0.
  generalize (Z.div_mod a 10 ltac:(lia)) (Z.mod_pos_bound a 10 ltac:(lia)).
  generalize (a mod 10). set (b := a / 10). intros r1 E1 B1.
  generalize (Z.div_mod b 10 ltac:(lia)) (Z.mod_pos_bound b 10 ltac:(lia)).
  generalize (b mod 10). set (c := b / 10). intros r2 E2 B2.
  generalize (Z.div_mod c 10 ltac:(lia)) (Z.mod_pos_bound c 10 ltac:(lia)).
  generalize (c mod 10). generalize (c / 10). intros q r3 E3 B3.
  clearbody a b c. lia.
Qed.

Lemma first_match_none {A B : Type} (k : A -> option B) (alts : list A) :
  Forall (fun a => k a = None) alts -> first_match k alts = None.
Proof.
  induction 1 as [|a l Ha _ IH]; simpl; [reflexivity|]. now rewrite Ha.
Qed.

Lemma alts_d_rests (d1 d2 : ascii) (rest : string) :
  is_digit d1 = true -> is_digit d2 = true ->
  Forall (fun x => snd x = rest \/ snd x = String d2 rest)
    (alts_d (String d1 (String d2 rest))).
Proof.
  intros H1 H2.
  destruct (digit_cases d1 H1) as [->|[->|[->|[->|[->|[->|[->|[->|[->| ->]]]]]]]]];
    destruct (digit_cases d2 H2) as [->|[->|[->|[->|[->|[->|[->|[->|[->| ->]]]]]]]]];
    simpl; repeat (apply Forall_cons || apply Forall_nil); simpl; auto.
Qed.

Lemma alts_m_rests (m1 m2 : ascii) (rest : string) :
  is_digit m1 = true -> is_digit m2 = true ->
  Forall (fun x => snd x = rest \/ snd x = String m2 rest)
    (alts_m (String m1 (String m2 rest))).
Proof.
  intros H1 H2.
  destruct (digit_cases m1 H1) as [->|[->|[->|[->|[->|[->|[->|[->|[->| ->]]]]]]]]];
    destruct (digit_cases m2 H2) as [->|[->|[->|[->|[->|[->|[->|[->|[->| ->]]]]]]]]];
    simpl; repeat (apply Forall_cons || apply Forall_nil); simpl; auto.
Qed.

Lemma match_dot_digit (c : ascii) (t : string) :
  is_digit c = true -> match_dot (String c t) = None.
Proof.
  intros H.
  destruct (digit_cases c H) as [->|[->|[->|[->|[->|[->|[->|[->|[->| ->]]]]]]]]];
    reflexivity.
Qed.

(** A text of two digits, a dot, two digits, a dot and a year text that
    [%Y] does not match is no match for the pattern. *)
Lemma match_dmY_short_year (d1 d2 m1 m2 : ascii) (ytext : string) :
  is_digit d1 = true -> is_digit d2 = true ->
  is_digit m1 = true -> is_digit m2 = true ->
  match_Y ytext = None ->
  match_dmY (String d1 (String d2 (String "." (String m1 (String m2
               (String "." ytext)))))) = None.
Proof.
  intros Hd1 Hd2 Hm1 Hm2 Hy. unfold match_dmY.
  apply first_match_none.
  eapply Forall_impl; [|apply alts_d_rests; assumption].
  intros [d r1] [Hr | Hr]; simpl in Hr; subst r1.
  - cbn [match_dot Ascii.eqb Bool.eqb].
    apply first_match_none.
    eapply Forall_impl; [|apply alts_m_rests; assumption].
    intros [m r3] [Hr | Hr]; simpl in Hr; subst r3.
    + cbn [match_dot Ascii.eqb Bool.eqb]. now rewrite Hy.
    + now rewrite match_dot_digit.
  - now rewrite match_dot_digit.
Qed.

Lemma year_text_short (n : Z) :
  n < 1000 -> match_Y (year_text n EmptyString) = None.
Proof.
  intros H. unfold year_text, pad2.
  destruct (n <? 10); [reflexivity|].
  destruct (n <? 100); [reflexivity|].
  destruct (Z.ltb_spec n 1000); [reflexivity | lia].
Qed.

(** X14: the text that show_birthday gives for a date of the calendar is
    accepted back by [Birthday], as that same date, when the year is 1000
    or later; for an earlier year the text shown, which has the year
    without leading zeros, is rejected with the validation message. *)
Theorem displayed_birthday_reparses (d : date) :
  valid_date d = true ->
  Birthday.init (strftime_dmY d) =
  if 1000 <=? year d then Ok d
  else Raise (ValueError "Invalid date format. Use DD.MM.YYYY").
Proof.
  intros Hv.
  destruct (valid_date_bounds d Hv) as (Hy & Hm & Hd & Hdim).
  set (d1 := digit_char (day d / 10 mod 10)).
  set (d2 := digit_char (day d mod 10)).
  set (m1 := digit_char (month d / 10 mod 10)).
  set (m2 := digit_char (month d mod 10)).
  destruct (digit_char_val _ (mod10_range (day d / 10))) as [Id1 Vd1].
  destruct (digit_char_val _ (mod10_range (day d))) as [Id2 Vd2].
  destruct (digit_char_val _ (mod10_range (month d / 10))) as [Im1 Vm1].
  destruct (digit_char_val _ (mod10_range (month d))) as [Im2 Vm2].
  fold d1 in Id1, Vd1. fold d2 in Id2, Vd2. fold m1 in Im1, Vm1.
  fold m2 in Im2, Vm2.
  destruct (Z.leb_spec 1000 (year d)) as [Hbig | Hsmall].
  - set (y1 := digit_char (year d / 1000 mod 10)).
    set (y2 := digit_char (year d / 100 mod 10)).
    set (y3 := digit_char (year d / 10 mod 10)).
    set (y4 := digit_char (year d mod 10)).
    assert (Htext : strftime_dmY d = dmY_text d1 d2 m1 m2 y1 y2 y3 y4).
    { unfold strftime_dmY. now rewrite (year_text_four_digits _ _ Hbig). }
    rewrite Htext.
    destruct (digit_char_val _ (mod10_range (year d / 1000))) as [Iy1 Vy1].
    destruct (digit_char_val _ (mod10_range (year d / 100))) as [Iy2 Vy2].
    destruct (digit_char_val _ (mod10_range (year d / 10))) as [Iy3 Vy3].
    destruct (digit_char_val _ (mod10_range (year d))) as [Iy4 Vy4].
    fold y1 in Iy1, Vy1. fold y2 in Iy2, Vy2.
    fold y3 in Iy3, Vy3. fold y4 in Iy4, Vy4.
    clearbody d1 d2 m1 m2 y1 y2 y3 y4.
    assert (Nd : num2 d1 d2 = day d)
      by (unfold num2; rewrite Vd1, Vd2; apply digits2; lia).
    assert (Nm : num2 m1 m2 = month d)
      by (unfold num2; rewrite Vm1, Vm2; apply digits2; lia).
    assert (Ny : num4 y1 y2 y3 y4 = year d)
      by (unfold num4; rewrite Vy1, Vy2, Vy3, Vy4; apply digits4; lia).
    assert (Hp : strptime_dmY (dmY_text d1 d2 m1 m2 y1 y2 y3 y4) = Ok d).
    { unfold strptime_dmY. rewrite match_dmY_padded.
      - rewrite Nd, Nm, Ny. now apply valid_date_new.
      - simpl. now rewrite Id1, Id2, Im1, Im2, Iy1, Iy2, Iy3, Iy4.
      - lia.
      - lia. }
    destruct (birthday_init_cases (dmY_text d1 d2 m1 m2 y1 y2 y3 y4))
      as [(d' & Hs & Hi) | [[e He] _]]; congruence.
  - assert (Htext : strftime_dmY d =
                    String d1 (String d2 (String "." (String m1 (String m2
                      (String "." (year_text (year d) EmptyString)))))))
      by reflexivity.
    rewrite Htext. clearbody d1 d2 m1 m2.
    assert (Hp : strptime_dmY
                   (String d1 (String d2 (String "." (String m1 (String m2
                      (String "." (year_text (year d) EmptyString)))))))
                 = Raise (ValueError "time data does not match format")).
    { unfold strptime_dmY.
      now rewrite (match_dmY_short_year d1 d2 m1 m2 _ Id1 Id2 Im1 Im2
                     (year_text_short _ Hsmall)). }
    destruct (birthday_init_cases
                (String d1 (String d2 (String "." (String m1 (String m2
                   (String "." (year_text (year d) EmptyString)))))))) 
      as [(d' & Hs & Hi) | [_ Hi]]; [congruence | exact Hi].
Qed.

Lemma displayed_birthday_reparses_witness :
  valid_date (mkdate 1987 2 28) = true
  /\ Birthday.init (strftime_dmY (mkdate 1987 2 28)) = Ok (mkdate 1987 2 28).
Proof.
  split; [reflexivity|].
  exact (displayed_birthday_reparses (mkdate 1987 2 28) eq_refl).
Defined.

(** ** The window of the birthdays command *)

(** X15: birthdays uses the window of 7 days whenever its argument,
    stripped of white space, is not made of digits only: empty, signed,
    or with any other character. *)
Theorem birthdays_default_window (today : date) (args : string)
  (book : AddressBook) :
  str_isdigit (strip args) = false ->
  birthdays today args book = birthdays today "7" book.
Proof.
  intros H. unfold birthdays, input_error, birthdays_body.
  rewrite H. reflexivity.
Qed.

Lemma birthdays_default_window_witness :
  str_isdigit (strip " -3 ") = false
  /\ birthdays (mkdate 2024 6 10) " -3 "
       [("Ann", Record.mk "Ann" [] (Some (mkdate 1990 6 15)))]
     = birthdays (mkdate 2024 6 10) "7"
         [("Ann", Record.mk "Ann" [] (Some (mkdate 1990 6 15)))].
Proof.
  split; [reflexivity|].
  exact (birthdays_default_window (mkdate 2024 6 10) " -3 "
           [("Ann", Record.mk "Ann" [] (Some (mkdate 1990 6 15)))] eq_refl).
Defined.

(** ** Handlers one after the other *)

Lemma lstrip_no_space (s : string) : no_space s = true -> lstrip s = s.
Proof.
  unfold no_space. destruct s as [|c t]; simpl; [reflexivity|].
  intros H. apply andb_true_iff in H as [Hc _].
  apply negb_true_iff in Hc. now rewrite Hc.
Qed.

Lemma rstrip_no_space (s : string) : no_space s = true -> rstrip s = s.
Proof.
  unfold no_space. induction s as [|c t IH]; simpl; [reflexivity|].
  intros H. apply andb_true_iff in H as [Hc Ht].
  apply negb_true_iff in Hc. rewrite (IH Ht), Hc. now destruct t.
Qed.

Lemma strip_no_space (s : string) : no_space s = true -> strip s = s.
Proof.
  intros H. unfold strip. now rewrite (lstrip_no_space s H), rstrip_no_space.
Qed.

Lemma add_contact_new_valid (args name phone : string) (book : AddressBook) :
  split_maxsplit1 args = [name; phone] ->
  find book name = None ->
  Phone.validate phone = true ->
  snd (add_contact args book) =
  (book ++ [(name, Record.mk name [phone] None)])%list.
Proof.
  intros Hs Hf Hv.
  unfold add_contact, input_error, add_contact_body.
  rewrite Hs. cbn [unpack2]. rewrite Hf.
  destruct (add_phone_cases (Record.init name) phone) as [[_ ->] | [Hv' _]];
    [|congruence].
  cbn [Record.init Record.name Record.phones Record.set_phones
       Record.birthday app].
  change "Phone number must be exactly 10 digits." with digits_message.
  rewrite (added_message_clean name phone (split_first_no_space _ _ _ Hs) Hv).
  unfold add_record. cbn [Record.name snd].
  now rewrite (dict_set_absent name _ book Hf).
Qed.

(** X16: after add_contact has stored a new name with an accepted phone,
    show_phone for that name answers with exactly that phone. *)
Theorem add_contact_then_show_phone (args name phone : string)
  (book : AddressBook) :
  split_maxsplit1 args = [name; phone] ->
  find book name = None ->
  Phone.validate phone = true ->
  fst (show_phone name (snd (add_contact args book))) =
  Ok (name ++ "'s phone number(s): " ++ phone).
Proof.
  intros Hs Hf Hv.
  rewrite (add_contact_new_valid args name phone book Hs Hf Hv).
  unfold show_phone, input_error, show_phone_body.
  rewrite (strip_no_space name (split_first_no_space _ _ _ Hs)).
  unfold find in *. rewrite (dict_get_app_absent name _ book Hf).
  reflexivity.
Qed.

Lemma add_contact_then_show_phone_witness :
  split_maxsplit1 "Alice 1234567890" = ["Alice"; "1234567890"]
  /\ find [] "Alice" = None
  /\ Phone.validate "1234567890" = true
  /\ fst (show_phone "Alice" (snd (add_contact "Alice 1234567890" []))) =
     Ok "Alice's phone number(s): 1234567890".
Proof.
  split; [reflexivity|]. split; [reflexivity|]. split; [reflexivity|].
  exact (add_contact_then_show_phone "Alice 1234567890" "Alice" "1234567890"
           [] eq_refl eq_refl eq_refl).
Defined.

(** X17: add_contact for a name the book already holds appends an
    accepted phone to that record, after the phones it has, and keeps the
    order of the book and every other record; a rejected phone gives the
    validation message and leaves the book as it is. *)
Theorem add_contact_existing_name (args name phone : string)
  (book : AddressBook) (record : Record.t) :
  split_maxsplit1 args = [name; phone] ->
  find book name = Some record ->
  if Phone.validate phone
  then
    fst (add_contact args book) =
      Ok ("Phone number '" ++ phone ++ "' added for " ++ Record.name record ++ ".")
    /\ find (snd (add_contact args book)) name =
       Some (Record.mk (Record.name record) (Record.phones record ++ [phone])
               (Record.birthday record))
    /\ (forall k, k <> name ->
                  find (snd (add_contact args book)) k = find book k)
    /\ map fst (snd (add_contact args book)) = map fst book
  else
    add_contact args book = (Ok "Phone number must be exactly 10 digits.", book).
Proof.
  intros Hs Hf.
  unfold add_contact, input_error, add_contact_body.
  rewrite Hs. cbn [unpack2]. rewrite Hf.
  destruct (add_phone_cases record phone) as [[Hv ->] | [Hv ->]]; rewrite Hv.
  - cbn [fst snd]. unfold find in *.
    destruct (dict_set_present name
                (Record.set_phones record (Record.phones record ++ [phone]))
                record book Hf) as (Hg & Hk & Ho).
    auto.
  - unfold find in Hf. now rewrite (dict_set_same name record book Hf).
Qed.

Lemma add_contact_existing_name_witness :
  let book := [("Bob", Record.mk "Bob" ["1111111111"] None)] in
  split_maxsplit1 "Bob 2222222222" = ["Bob"; "2222222222"]
  /\ find book "Bob" = Some (Record.mk "Bob" ["1111111111"] None)
  /\ fst (add_contact "Bob 2222222222" book) =
       Ok "Phone number '2222222222' added for Bob."
  /\ find (snd (add_contact "Bob 2222222222" book)) "Bob" =
       Some (Record.mk "Bob" ["1111111111"; "2222222222"] None)
  /\ (forall k, k <> "Bob" ->
                find (snd (add_contact "Bob 2222222222" book)) k = find book k)
  /\ map fst (snd (add_contact "Bob 2222222222" book)) = map fst book.
Proof.
  cbv zeta. split; [reflexivity|]. split; [reflexivity|].
  exact (add_contact_existing_name "Bob 2222222222" "Bob" "2222222222"
           [("Bob", Record.mk "Bob" ["1111111111"] None)]
           (Record.mk "Bob" ["1111111111"] None) eq_refl eq_refl).
Defined.

(** X18: after the add_birthday command has set an accepted date for a
    stored name, the show_birthday command for that name answers with the
    stored date as strftime formats it: day and month with two digits
    and, for a year of 1000 or later, the year with its four digits. *)
Theorem add_birthday_then_show (args name text : string) (book : AddressBook)
  (record : Record.t) (d : date) :
  split_maxsplit1 args = [name; text] ->
  find book name = Some record ->
  Birthday.init text = Ok d ->
  fst (add_birthday args book) =
    Ok ("Birthday '" ++ text ++ "' set for " ++ Record.name record ++ ".")
  /\ fst (show_birthday name (snd (add_birthday args book))) =
     Ok (name ++ "'s birthday is " ++ strftime_dmY d ++ ".")
  /\ (1000 <= year d ->
      strftime_dmY d =
      pad2 (day d) (String "." (pad2 (month d) (String "."
        (pad4 (year d) EmptyString))))).
Proof.
  intros Hs Hf Hi.
  unfold add_birthday, input_error, add_birthday_body.
  rewrite Hs. cbn [unpack2]. rewrite Hf.
  unfold Record.add_birthday. rewrite Hi. cbn [fst snd].
  split; [reflexivity|]. split.
  - unfold show_birthday, input_error, show_birthday_body.
    rewrite (strip_no_space name (split_first_no_space _ _ _ Hs)).
    unfold find in *.
    destruct (dict_set_present name (Record.set_birthday record (Some d))
                record book Hf) as (Hg & _).
    rewrite Hg. reflexivity.
  - intros Hy. unfold strftime_dmY.
    now rewrite (year_text_four_digits _ _ Hy).
Qed.

Lemma add_birthday_then_show_witness :
  let book := [("Bob", Record.mk "Bob" ["1111111111"] None)] in
  split_maxsplit1 "Bob 5.6.1990" = ["Bob"; "5.6.1990"]
  /\ find book "Bob" = Some (Record.mk "Bob" ["1111111111"] None)
  /\ Birthday.init "5.6.1990" = Ok (mkdate 1990 6 5)
  /\ fst (add_birthday "Bob 5.6.1990" book) =
       Ok "Birthday '5.6.1990' set for Bob."
  /\ fst (show_birthday "Bob" (snd (add_birthday "Bob 5.6.1990" book))) =
       Ok "Bob's birthday is 05.06.1990."
  /\ (1000 <= 1990 -> "05.06.1990" = "05.06.1990").
Proof.
  cbv zeta. split; [reflexivity|]. split; [reflexivity|]. split; [reflexivity|].
  exact (add_birthday_then_show "Bob 5.6.1990" "Bob" "5.6.1990"
           [("Bob", Record.mk "Bob" ["1111111111"] None)]
           (Record.mk "Bob" ["1111111111"] None) (mkdate 1990 6 5)
           eq_refl eq_refl eq_refl).
Defined.

(** ** The command loop *)

Lemma split_space1_app (cmd args : string) :
  str_forall (fun c => negb (Ascii.eqb c " ")) cmd = true ->
  split_space1 (cmd ++ String " " args) = (cmd, Some args)
  /\ split_space1 cmd = (cmd, None).
Proof.
  induction cmd as [|c t IH]; simpl; intros H.
  - split; reflexivity.
  - apply andb_true_iff in H as [Hc Ht]. apply negb_true_iff in Hc.
    rewrite Hc. destruct (IH Ht) as [-> ->]. split; reflexivity.
Qed.

(** X19: parse_input cuts the line at its first space character: the text
    before it, in lower case, is the command and everything after it,
    further spaces included, is the argument string; a line without a
    space is a command with an empty argument string. *)
Theorem parse_input_first_space (cmd args : string) :
  str_forall (fun c => negb (Ascii.eqb c " ")) cmd = true ->
  parse_input (cmd ++ String " " args) = (lower cmd, args)
  /\ parse_input cmd = (lower cmd, EmptyString).
Proof.
  intros H. unfold parse_input.
  destruct (split_space1_app cmd args H) as [-> ->]. split; reflexivity.
Qed.

Lemma parse_input_first_space_witness :
  str_forall (fun c => negb (Ascii.eqb c " ")) "ADD" = true
  /\ parse_input ("ADD" ++ String " " " Alice  1234567890")
     = (lower "ADD", " Alice  1234567890")
  /\ parse_input "ADD" = (lower "ADD", EmptyString).
Proof.
  split; [reflexivity|].
  exact (parse_input_first_space "ADD" " Alice  1234567890" eq_refl).
Defined.

Lemma dict_set_keys_grow (key : string) (r : Record.t) (book : AddressBook) :
  exists extra, map fst (dict_set key r book) = (map fst book ++ extra)%list.
Proof.
  rewrite dict_set_keys. destruct (dict_get book key).
  - exists []. now rewrite app_nil_r.
  - eauto.
Qed.

Lemma keys_grow_refl (book : AddressBook) :
  exists extra, map fst book = (map fst book ++ extra)%list.
Proof. exists []. now rewrite app_nil_r. Qed.

Lemma add_contact_keys (args : string) (book : AddressBook) :
  exists extra,
    map fst (snd (add_contact args book)) = (map fst book ++ extra)%list.
Proof.
  unfold add_contact, input_error, add_contact_body.
  destruct (unpack2 (split_maxsplit1 args)) as [[name phone]|e].
  - destruct (find book name) as [record|].
    + destruct (Record.add_phone record phone) as [res record'].
      destruct res as [s|[]]; simpl; apply dict_set_keys_grow.
    + destruct (Record.add_phone (Record.init name) phone) as [res record'].
      destruct res as [s|[]]; simpl; try apply keys_grow_refl.
      destruct (str_in "Phone number must be exactly 10 digits." s); simpl;
        [apply keys_grow_refl | apply dict_set_keys_grow].
  - destruct e; simpl; apply keys_grow_refl.
Qed.

Lemma change_phone_keys (args : string) (book : AddressBook) :
  exists extra,
    map fst (snd (change_phone args book)) = (map fst book ++ extra)%list.
Proof.
  unfold change_phone, input_error, change_phone_body.
  destruct (unpack2 (split_maxsplit1 args)) as [[name phone]|e].
  - destruct (find book name) as [record|]; [|apply keys_grow_refl].
    match goal with
    | |- context [Record.edit_phone ?r ?o ?n] =>
        destruct (Record.edit_phone r o n) as [res record']
    end.
    destruct res as [s|[]]; simpl; apply dict_set_keys_grow.
  - destruct e; simpl; apply keys_grow_refl.
Qed.

Lemma add_birthday_keys (args : string) (book : AddressBook) :
  exists extra,
    map fst (snd (add_birthday args book)) = (map fst book ++ extra)%list.
Proof.
  unfold add_birthday, input_error, add_birthday_body.
  destruct (unpack2 (split_maxsplit1 args)) as [[name text]|e].
  - destruct (find book name) as [record|]; [|apply keys_grow_refl].
    destruct (Record.add_birthday record text) as [res record'].
    destruct res as [s|[]]; simpl; apply dict_set_keys_grow.
  - destruct e; simpl; apply keys_grow_refl.
Qed.

Lemma show_phone_book (args : string) (book : AddressBook) :
  snd (show_phone args book) = book.
Proof.
  unfold show_phone, input_error, show_phone_body.
  now destruct (find book (strip args)).
Qed.

Lemma show_birthday_book (args : string) (book : AddressBook) :
  snd (show_birthday args book) = book.
Proof.
  unfold show_birthday, input_error, show_birthday_body.
  now destruct (find book (strip args)).
Qed.

(** X20: one turn of the command loop never removes a name from the book
    and never reorders it: the names after the turn are the names before
    it, in the same order, followed by what the turn added.  Only the
    commands add, change and add-birthday can change the book at all. *)
Theorem main_step_keeps_names (today : date) (user_input text : string)
  (book book' : AddressBook) (stop : bool) :
  main_step today user_input book = Ok (text, book', stop) ->
  (exists extra, map fst book' = (map fst book ++ extra)%list)
  /\ (fst (parse_input user_input) <> "add" ->
      fst (parse_input user_input) <> "change" ->
      fst (parse_input user_input) <> "add-birthday" ->
      book' = book).
Proof.
  unfold main_step. destruct (parse_input user_input) as [command args].
  cbn [fst].
  destruct (String.eqb command "close" || String.eqb command "exit")%bool.
  { intros [= <- <- <-]. split; [apply keys_grow_refl | reflexivity]. }
  destruct (String.eqb command "hello").
  { intros [= <- <- <-]. split; [apply keys_grow_refl | reflexivity]. }
  destruct (String.eqb_spec command "add") as [->|Hadd].
  { pose proof (add_contact_keys args book) as Hk.
    destruct (add_contact args book) as [[t|e] b]; [|discriminate].
    intros [= <- <- <-]. split; [exact Hk | congruence]. }
  destruct (String.eqb_spec command "change") as [->|Hch].
  { pose proof (change_phone_keys args book) as Hk.
    destruct (change_phone args book) as [[t|e] b]; [|discriminate].
    intros [= <- <- <-]. split; [exact Hk | congruence]. }
  destruct (String.eqb command "phone").
  { pose proof (show_phone_book args book) as Hk.
    destruct (show_phone args book) as [[t|e] b]; [|discriminate].
    simpl in Hk. subst b.
    intros [= <- <- <-]. split; [apply keys_grow_refl | reflexivity]. }
  destruct (String.eqb command "all").
  { intros [= <- <- <-]. split; [apply keys_grow_refl | reflexivity]. }
  destruct (String.eqb_spec command "add-birthday") as [->|Hab].
  { pose proof (add_birthday_keys args book) as Hk.
    destruct (add_birthday args book) as [[t|e] b]; [|discriminate].
    intros [= <- <- <-]. split; [exact Hk | congruence]. }
  destruct (String.eqb command "show-birthday").
  { pose proof (show_birthday_book args book) as Hk.
    destruct (show_birthday args book) as [[t|e] b]; [|discriminate].
    simpl in Hk. subst b.
    intros [= <- <- <-]. split; [apply keys_grow_refl | reflexivity]. }
  destruct (String.eqb command "birthdays").
  { destruct (birthdays_returns today args book) as [t ->].
    intros [= <- <- <-]. split; [apply keys_grow_refl | reflexivity]. }
  intros [= <- <- <-]. split; [apply keys_grow_refl | reflexivity].
Qed.

Lemma main_step_keeps_names_witness :
  let book := [("Ann", Record.mk "Ann" ["1111111111"] None)] in
  let book' := [("Ann", Record.mk "Ann" ["1111111111"] None);
                ("Bob", Record.mk "Bob" ["2222222222"] None)] in
  main_step (mkdate 2024 6 10) "add Bob 2222222222" book =
    Ok ("New contact 'Bob' added with phone number '2222222222'."
        ++ String LF "Phone number '2222222222' added for Bob.", book', false)
  /\ (exists extra, map fst book' = (map fst book ++ extra)%list)
  /\ (fst (parse_input "add Bob 2222222222") <> "add" ->
      fst (parse_input "add Bob 2222222222") <> "change" ->
      fst (parse_input "add Bob 2222222222") <> "add-birthday" ->
      book' = book).
Proof.
  cbv zeta. split; [reflexivity|].
  exact (main_step_keeps_names (mkdate 2024 6 10) "add Bob 2222222222" _
           [("Ann", Record.mk "Ann" ["1111111111"] None)] _ false eq_refl).
Defined.

(** X21: a line whose command is close or exit, in any letter case, ends
    the loop: "Good bye!" is the last text printed, the book as it stands
    is the one saved, and no later line is read. *)
Theorem exit_ends_the_loop (before after : list (date * string))
  (today : date) (user_input : string) (book : AddressBook) :
  fst (parse_input user_input) = "close"
  \/ fst (parse_input user_input) = "exit" ->
  main_loop (before ++ (today, user_input) :: after) book =
  main_loop (before ++ [(today, user_input)]) book
  /\ main_loop ((today, user_input) :: after) book =
     Ok (["Good bye!"], Saved book).
Proof.
  intros Hc.
  assert (Hstep : forall b, main_step today user_input b = Ok ("Good bye!", b, true)).
  { intros b. unfold main_step.
    destruct (parse_input user_input) as [command args]. cbn [fst] in Hc.
    destruct Hc as [-> | ->]; reflexivity. }
  split.
  - revert book. induction before as [|[t l] before IH]; intros book.
    + simpl. now rewrite Hstep.
    + simpl. destruct (main_step t l book) as [[[text b'] [|]]|e]; trivial.
      now rewrite IH.
  - simpl. now rewrite Hstep.
Qed.

Lemma exit_ends_the_loop_witness :
  let t := mkdate 2024 6 10 in
  (fst (parse_input "EXIT now") = "close" \/ fst (parse_input "EXIT now") = "exit")
  /\ main_loop ([(t, "add Bob 2222222222")] ++ (t, "EXIT now") :: [(t, "all")]) [] =
     main_loop ([(t, "add Bob 2222222222")] ++ [(t, "EXIT now")]) []
  /\ main_loop ((t, "EXIT now") :: [(t, "all")]) [] =
     Ok (["Good bye!"], Saved []).
Proof.
  cbv zeta.
  assert (H : fst (parse_input "EXIT now") = "close"
              \/ fst (parse_input "EXIT now") = "exit") by (right; reflexivity).
  split; [exact H|].
  exact (exit_ends_the_loop [(mkdate 2024 6 10, "add Bob 2222222222")]
           [(mkdate 2024 6 10, "all")] (mkdate 2024 6 10) "EXIT now" [] H).
Defined.

(** X22: show_all_contacts answers "No contacts in address book." for
    the empty book and for no other: for a book with records the text
    begins with "All contacts:". *)
Theorem show_all_contacts_empty (book : AddressBook) :
  (show_all_contacts book = "No contacts in address book." <-> book = [])
  /\ (book <> [] ->
      exists rest, show_all_contacts book = "All contacts:" ++ rest).
Proof.
  assert (Hne : book <> [] ->
                exists rest, show_all_contacts book = "All contacts:" ++ rest).
  { intros Hb. destruct book as [|kr book]; [congruence|].
    unfold show_all_contacts, strip.
    set (tail := contact_lines (kr :: book)). clearbody tail.
    change (lstrip ("All contacts:" ++ String LF tail))
      with ("All contacts:" ++ String LF tail).
    assert (Hr : forall pre s, rstrip s <> EmptyString ->
                   rstrip (pre ++ s) = pre ++ rstrip s).
    { induction pre as [|c t IH]; intros s Hs; [reflexivity|].
      simpl. rewrite (IH s Hs).
      destruct (t ++ rstrip s) eqn:E; [|reflexivity].
      destruct t; simpl in E; congruence. }
    assert (Hcolon : rstrip (String ":" (String LF tail)) =
                     String ":" (rstrip (String LF tail))).
    { change (rstrip (String ":" (String LF tail)))
        with (match rstrip (String LF tail) with
              | EmptyString => String ":" EmptyString
              | t' => String ":" t'
              end).
      now destruct (rstrip (String LF tail)). }
    exists (rstrip (String LF tail)).
    change ("All contacts:" ++ String LF tail)
      with ("All contacts" ++ String ":" (String LF tail)).
    rewrite Hr, Hcolon; [reflexivity|].
    rewrite Hcolon. discriminate. }
  split; [|exact Hne].
  split.
  - intros H. destruct book as [|kr book]; [reflexivity|].
    destruct (Hne ltac:(discriminate)) as [rest Hrest].
    rewrite Hrest in H. discriminate.
  - intros ->. reflexivity.
Qed.

(** ** The weekend shift in the list of upcoming birthdays *)





